(** * NanoMDM: cert-auth storage, HTTP adapter and the main service

    A shallow embedding of the Go sources of the repository:
    - [storage/pgsql/certauth.go]   (module [pgsql]),
    - the HTTP adapter of package [mdm] under [http/]  (module [http]),
    - the NanoMDM service of package [nanomdm]  (module [nanomdm]),
    - the interfaces of package [service], as opaque types.

    Go values are modelled as follows: [string] is a byte string, [[]byte] a
    list of bytes, a possibly-nil pointer or [error] an [option], a nil map
    [None]; a function that can panic returns an [option], [None] for the
    panic.  [strings.ToLower] and [http.DetectContentType] are parameters
    (class [go.Library]), with the facts about them that the proofs use.
    Calls on interface values (the storage backend, the optional
    handlers, the services behind the HTTP adapter) are the events of a
    small free monad and log lines are its output; a run against an
    implementation yields the result, the final state of the implementation
    and the trace of calls and log lines. *)

From Stdlib Require Import ZArith List Bool Lia.
From Stdlib.Strings Require Import String Ascii Byte.
From stdpp Require Import base option list strings gmap fin_maps.
Import ListNotations.

Open Scope Z_scope.

Set Implicit Arguments.
Set Warnings "-register-all".

(** Go types that the embedded code only passes around. *)
Class GoTypes := {
  GoContext : Type;            (* context.Context *)
  Certificate : Type;          (* x509.Certificate *)
  Logger : Type;               (* log.Logger *)
  ServiceStore : Type;         (* storage.ServiceStore *)
  DeclarativeManagementHandler : Type;   (* service.DeclarativeManagement *)
  UserAuthenticateHandler : Type;        (* service.UserAuthenticate *)
  GetTokenHandler : Type;                (* service.GetToken *)
  CheckinService : Type;                 (* service.Checkin *)
  CommandService : Type;                 (* service.CommandAndReportResults *)
}.

(** ** Package [mdm]: the types the three files use *)
Module mdm.

Definition bytes := list Byte.byte.

(** [string(b)] for a byte slice [b]. *)
Definition string_of_bytes (b : bytes) : string := string_of_list_byte b.

(** Go [error] values (non-nil), by the way they wrap their cause.
    [fmt_Errorf format w] is [fmt.Errorf(format, w)] for a format with one
    [%w] verb; [Unwrap] of each wrapper gives its cause, possibly nil. *)
Inductive error : Type :=
| errors_New (text : string)
| sql_ErrNoRows
| fmt_Errorf (format : string) (w : option error)
| HTTPStatusError (Status : Z) (Err : option error)
| ParseError (Err : option error) (Content : bytes).

(** [err.Unwrap()], nil for an error without the method. *)
Definition Unwrap (err : error) : option error :=
  match err with
  | errors_New _ | sql_ErrNoRows => None
  | fmt_Errorf _ w => w
  | HTTPStatusError _ e => e
  | ParseError e _ => e
  end.

(** [errors.Is(err, sql.ErrNoRows)]. *)
Fixpoint errors_Is_ErrNoRows (err : error) : bool :=
  match err with
  | sql_ErrNoRows => true
  | errors_New _ => false
  | fmt_Errorf _ w => match w with Some e => errors_Is_ErrNoRows e | None => false end
  | HTTPStatusError _ w => match w with Some e => errors_Is_ErrNoRows e | None => false end
  | ParseError w _ => match w with Some e => errors_Is_ErrNoRows e | None => false end
  end.

(** [errors.As(err, &statusErr)] for [statusErr *service.HTTPStatusError]:
    the first HTTPStatusError on the chain, as its fields. *)
Fixpoint errors_As_HTTPStatusError (err : error) : option (Z * option error) :=
  match err with
  | HTTPStatusError s e => Some (s, e)
  | errors_New _ | sql_ErrNoRows => None
  | fmt_Errorf _ w => match w with Some e => errors_As_HTTPStatusError e | None => None end
  | ParseError w _ => match w with Some e => errors_As_HTTPStatusError e | None => None end
  end.

(** [errors.As(err, &parseErr)] for [parseErr *mdm.ParseError]. *)
Fixpoint errors_As_ParseError (err : error) : option (option error * bytes) :=
  match err with
  | ParseError e c => Some (e, c)
  | errors_New _ | sql_ErrNoRows => None
  | fmt_Errorf _ w => match w with Some e => errors_As_ParseError e | None => None end
  | HTTPStatusError _ w => match w with Some e => errors_As_ParseError e | None => None end
  end.

(** Modelled from the spec: the type declarations of package [mdm] are not
    under src/.  Data model, "Enrollment": [type] is one of Device, User,
    UserEnrollment, UserEnrollmentDevice. *)
Inductive EnrollType := Device | User | UserEnrollmentDevice | UserEnrollment.

Record EnrollID := {
  Type_ : EnrollType;
  ID : string;
  ParentID : string;
}.

(** The result of [Enrollment.Resolved], with the fields [normalize] reads. *)
Record ResolvedEnrollment := {
  Resolved_Type : EnrollType;
  DeviceChannelID : string;
  UserChannelID : string;
  IsUserChannel : bool;
}.

(** Modelled from the spec: the enrollment block of a message exposes
    UDID, EnrollmentID, UserID and UserShortName. *)
Record Enrollment := {
  UDID : string;
  EnrollmentID : string;
  UserID : string;
  UserShortName : string;
}.

(** Messages: the embedded enrollment block, the fields the service reads,
    and the raw property list. *)
Record Authenticate := {
  Authenticate_Enrollment : Enrollment;
  SerialNumber : string;
  Authenticate_Raw : bytes;
}.
Record TokenUpdate := {
  TokenUpdate_Enrollment : Enrollment;
  TokenUpdate_Raw : bytes;
}.
Record CheckOut := {
  CheckOut_Enrollment : Enrollment;
  CheckOut_Raw : bytes;
}.
Record UserAuthenticate := {
  UserAuthenticate_Enrollment : Enrollment;
  DigestResponse : string;
  UserAuthenticate_Raw : bytes;
}.
Record SetBootstrapToken := {
  SetBootstrapToken_Enrollment : Enrollment;
  SetBootstrapToken_Raw : bytes;
}.
Record GetBootstrapToken := {
  GetBootstrapToken_Enrollment : Enrollment;
  GetBootstrapToken_Raw : bytes;
}.
Record DeclarativeManagement := {
  DeclarativeManagement_Enrollment : Enrollment;
  Endpoint : string;
  Data : bytes;
  DeclarativeManagement_Raw : bytes;
}.
Record GetToken := {
  GetToken_Enrollment : Enrollment;
  TokenServiceType : string;
  GetToken_Raw : bytes;
}.
Record CommandResults := {
  CommandResults_Enrollment : Enrollment;
  CommandUUID : string;
  Status : string;
  CommandResults_Raw : bytes;
}.

Record BootstrapToken := { BootstrapToken_bytes : bytes }.
Record GetTokenResponse := { TokenData : bytes }.
Record Command := {
  Command_CommandUUID : string;
  RequestType : string;
  Command_Raw : bytes;
}.

Section Request.
Context `{GoTypes}.

(** Modelled from the spec: the declaration of [mdm.Request] is not under
    src/.  Request Context: it carries the decoded client certificate, the
    raw URL query parameters and, once resolved, the enrollment identifier
    (the embedded [*EnrollID], nil until then), and the context. *)
Record Request := {
  Request_EnrollID : option EnrollID;
  Request_Certificate : option Certificate;
  Params : option (gmap string string);
  ctx : GoContext;
}.

(** Modelled from the spec: [mdm.NewRequestWithContext(ctx, cert)] is not
    under src/.  A request constructed at ingress has the certificate and
    the context; parameters and enrollment id are not set yet. *)
Definition NewRequestWithContext (c : GoContext) (cert : option Certificate) : Request :=
  {| Request_EnrollID := None; Request_Certificate := cert; Params := None; ctx := c |}.

(** Modelled from the spec: [r.Context()] is not under src/; it gives the
    context the request carries. *)
Definition Request_Context (r : Request) : GoContext := ctx r.

(** Modelled from the spec: [r.WithContext(ctx)] is not under src/; it
    gives a shallow copy of [r] that carries [ctx] instead. *)
Definition WithContext (r : Request) (c : GoContext) : Request :=
  {| Request_EnrollID := Request_EnrollID r;
     Request_Certificate := Request_Certificate r;
     Params := Params r;
     ctx := c |}.

(** [r.EnrollID = eid], the assignment in [setupRequest]. *)
Definition set_EnrollID (r : Request) (eid : option EnrollID) : Request :=
  {| Request_EnrollID := eid;
     Request_Certificate := Request_Certificate r;
     Params := Params r;
     ctx := ctx r |}.
End Request.

(** Values of a key-value log line ([[]interface{}]). *)
Inductive LogValue :=
| LStr (s : string)
| LBool (b : bool)
| LInt (n : Z)
| LErr (e : option error).

Inductive LogLevel := Info | Debug.

End mdm.

(** Functions of the repository that the three files call and whose source
    is not under src/; the embedded code is parametric in them. *)
Class Externals `{GoTypes} := {
  (* http/mdm: GetCert(ctx) *)
  GetCert : GoContext -> option Certificate;
  (* mdm: (e *Enrollment) Resolved() *)
  Resolved : mdm.Enrollment -> option mdm.ResolvedEnrollment;
  (* mdm: (eid *EnrollID) Validate(), also called on a nil receiver *)
  Validate : option mdm.EnrollID -> option mdm.error;
  (* nanomdm: newContextWithValues(ctx, r) *)
  newContextWithValues : GoContext -> mdm.Request -> GoContext;
  (* ctxlog.AddFunc(ctx, ctxKVs) *)
  ctxlog_AddFunc_ctxKVs : GoContext -> GoContext;
  (* log.NopLogger *)
  log_NopLogger : Logger;
}.

(** ** Programs over interface calls *)
Module effects.

(** A program that returns an [A] after finitely many steps.  [E X] is the
    type of calls on collaborators that answer with an [X]; [L] is the type
    of log lines, which are output only. *)
Inductive Prog (L : Type) (E : Type -> Type) (A : Type) : Type :=
| Ret (a : A)
| Vis (X : Type) (e : E X) (k : X -> Prog L E A)
| Say (line : L) (k : Prog L E A).
Arguments Ret {L E A} a.
Arguments Vis {L E A X} e k.
Arguments Say {L E A} line k.

Fixpoint bind {L E A B} (p : Prog L E A) (f : A -> Prog L E B) : Prog L E B :=
  match p with
  | Ret a => f a
  | Vis e k => Vis e (fun x => bind (k x) f)
  | Say l k => Say l (bind k f)
  end.

Definition call {L E X} (e : E X) : Prog L E X := Vis e Ret.
Definition say {L E} (line : L) : Prog L E unit := Say line (Ret tt).

#[global] Instance Prog_ret {L E} : MRet (Prog L E) := fun A a => Ret a.
#[global] Instance Prog_bind {L E} : MBind (Prog L E) := fun A B f p => bind p f.

(** One step of a trace: a call with its answer, or a log line. *)
Inductive Event (L : Type) (E : Type -> Type) : Type :=
| Ev (X : Type) (e : E X) (x : X)
| Logged (line : L).
Arguments Ev {L E X} e x.
Arguments Logged {L E} line.

(** An implementation of the calls over a state [W]. *)
Definition Impl (E : Type -> Type) (W : Type) : Type := forall X, E X -> W -> X * W.

(** Run [p] from state [w]: result, final state, steps in order. *)
Fixpoint run {L E A W} (h : Impl E W) (p : Prog L E A) (w : W)
    : A * W * list (Event L E) :=
  match p with
  | Ret a => (a, w, [])
  | Vis e k =>
      let '(x, w1) := h _ e w in
      let '(a, w2, t) := run h (k x) w1 in
      (a, w2, Ev e x :: t)
  | Say l k =>
      let '(a, w1, t) := run h k w in
      (a, w1, Logged l :: t)
  end.

(** The calls of a trace that satisfy [sel], with their answers. *)
Definition calls {L E} (sel : forall X, E X -> bool) (t : list (Event L E))
    : list (Event L E) :=
  List.filter (fun ev => match ev with Ev e _ => sel _ e | Logged _ => false end) t.

(** The log lines of a trace. *)
Fixpoint logged {L E} (t : list (Event L E)) : list L :=
  match t with
  | [] => []
  | Logged l :: t' => l :: logged t'
  | Ev _ _ :: t' => logged t'
  end.

End effects.

(** ** Go standard library functions the code calls *)
Module go.

(** One byte of the ASCII path of [strings.ToLower]: 'A'..'Z' move to
    'a'..'z', every other byte stays. *)
Definition lower_byte (c : ascii) : ascii :=
  let n := nat_of_ascii c in
  if ((65 <=? n) && (n <=? 90))%nat then ascii_of_nat (n + 32) else c.

(** What [strings.ToLower] returns for a string of ASCII bytes: each byte
    lowered on its own. *)
Fixpoint lower_ASCII (s : string) : string :=
  match s with
  | EmptyString => EmptyString
  | String c s' => String (lower_byte c) (lower_ASCII s')
  end.

(** No byte of [s] is [utf8.RuneSelf] (0x80) or above. *)
Fixpoint isASCII (s : string) : bool :=
  match s with
  | EmptyString => true
  | String c s' => (nat_of_ascii c <? 128)%nat && isASCII s'
  end.

(** Functions of the Go standard library whose result depends on tables the
    development does not reproduce (the Unicode case tables, the signatures
    of the content sniffer); the embedded code is parametric in them.
    - [strings.ToLower] maps every Unicode letter of its argument to lower
      case.  On a string of ASCII bytes it lowers 'A'..'Z' byte by byte, and
      a lowered string is left as it is by a second call.
    - [http.DetectContentType] gives the MIME type sniffed from the first
      bytes of a body. *)
Class Library := {
  strings_ToLower : string -> string;
  ToLower_ASCII : forall s, isASCII s = true -> strings_ToLower s = lower_ASCII s;
  ToLower_idempotent : forall s, strings_ToLower (strings_ToLower s) = strings_ToLower s;
  http_DetectContentType : list Byte.byte -> string;
}.

(** [net/http]: [http.StatusText]. *)
Definition http_StatusText (code : Z) : string :=
  match code with
  | 100 => "Continue" | 101 => "Switching Protocols" | 102 => "Processing"
  | 103 => "Early Hints"
  | 200 => "OK" | 201 => "Created" | 202 => "Accepted"
  | 203 => "Non-Authoritative Information" | 204 => "No Content"
  | 205 => "Reset Content" | 206 => "Partial Content" | 207 => "Multi-Status"
  | 208 => "Already Reported" | 226 => "IM Used"
  | 300 => "Multiple Choices" | 301 => "Moved Permanently" | 302 => "Found"
  | 303 => "See Other" | 304 => "Not Modified" | 305 => "Use Proxy"
  | 307 => "Temporary Redirect" | 308 => "Permanent Redirect"
  | 400 => "Bad Request" | 401 => "Unauthorized" | 402 => "Payment Required"
  | 403 => "Forbidden" | 404 => "Not Found" | 405 => "Method Not Allowed"
  | 406 => "Not Acceptable" | 407 => "Proxy Authentication Required"
  | 408 => "Request Timeout" | 409 => "Conflict" | 410 => "Gone"
  | 411 => "Length Required" | 412 => "Precondition Failed"
  | 413 => "Request Entity Too Large" | 414 => "Request URI Too Long"
  | 415 => "Unsupported Media Type" | 416 => "Requested Range Not Satisfiable"
  | 417 => "Expectation Failed" | 418 => "I'm a teapot"
  | 421 => "Misdirected Request" | 422 => "Unprocessable Entity"
  | 423 => "Locked" | 424 => "Failed Dependency" | 425 => "Too Early"
  | 426 => "Upgrade Required" | 428 => "Precondition Required"
  | 429 => "Too Many Requests" | 431 => "Request Header Fields Too Large"
  | 451 => "Unavailable For Legal Reasons"
  | 500 => "Internal Server Error" | 501 => "Not Implemented"
  | 502 => "Bad Gateway" | 503 => "Service Unavailable"
  | 504 => "Gateway Timeout" | 505 => "HTTP Version Not Supported"
  | 506 => "Variant Also Negotiates" | 507 => "Insufficient Storage"
  | 508 => "Loop Detected" | 510 => "Not Extended"
  | 511 => "Network Authentication Required"
  | _ => ""
  end.

Definition http_StatusInternalServerError : Z := 500.

(** [httptest.ResponseRecorder], the [http.ResponseWriter] that records what
    a handler does to it: the header map, the status code once the header is
    written ([None] before), the body. *)
Record ResponseWriter := {
  HeaderMap : gmap string string;
  Code : option Z;
  Body : list Byte.byte;
}.

Definition NewRecorder : ResponseWriter :=
  {| HeaderMap := ∅; Code := None; Body := [] |}.

(** [w.Header().Set(k, v)] and [w.Header().Del(k)], on canonical keys. *)
Definition Header_Set (k v : string) (w : ResponseWriter) : ResponseWriter :=
  {| HeaderMap := <[k := v]> (HeaderMap w); Code := Code w; Body := Body w |}.
Definition Header_Del (k : string) (w : ResponseWriter) : ResponseWriter :=
  {| HeaderMap := delete k (HeaderMap w); Code := Code w; Body := Body w |}.

(** [checkWriteHeaderCode] accepts the codes of three digits. *)
Definition valid_code (code : Z) : bool := (100 <=? code) && (code <=? 999).

(** [w.WriteHeader(code)]: only the first call sets the status, and it
    panics on a code that is not of three digits ([None]). *)
Definition WriteHeader (code : Z) (w : ResponseWriter) : option ResponseWriter :=
  match Code w with
  | Some _ => Some w
  | None =>
      if valid_code code
      then Some {| HeaderMap := HeaderMap w; Code := Some code; Body := Body w |}
      else None
  end.

(** The header of a response whose header is written by the first [Write]:
    a Content-Type is sniffed from the bytes written when the map has none
    and has no Transfer-Encoding either. *)
Definition sniffs (w : ResponseWriter) : bool :=
  negb (bool_decide (is_Some (HeaderMap w !! "Content-Type")))
  && String.eqb (default "" (HeaderMap w !! "Transfer-Encoding")) "".

Section Recorder.
Context `{Library}.

(** [w.Write(b)]: when the header is not written yet it is written with
    status 200, after the Content-Type is sniffed from [b] if the handler
    has set none; then [b] is appended to the body. *)
Definition Write (b : list Byte.byte) (w : ResponseWriter) : ResponseWriter :=
  let w1 :=
    match Code w with
    | Some _ => w
    | None =>
        {| HeaderMap := if sniffs w
                        then <["Content-Type" := http_DetectContentType b]> (HeaderMap w)
                        else HeaderMap w;
           Code := Some 200; Body := Body w |}
    end in
  {| HeaderMap := HeaderMap w1; Code := Code w1; Body := Body w1 ++ b |}.

(** [fmt.Fprintln(w, s)]. *)
Definition Fprintln (s : string) (w : ResponseWriter) : ResponseWriter :=
  Write (list_byte_of_string s ++ [Byte.x0a]) w.

(** [http.Error(w, error, code)]; [None] is the panic of [WriteHeader]. *)
Definition http_Error (w : ResponseWriter) (error : string) (code : Z)
    : option ResponseWriter :=
  let w := Header_Del "Content-Length" w in
  let w := Header_Set "Content-Type" "text/plain; charset=utf-8" w in
  let w := Header_Set "X-Content-Type-Options" "nosniff" w in
  w ← WriteHeader code w;
  Some (Fprintln error w).

End Recorder.

(** [url.Values] as [URL.Query] builds it from the key/value pairs of
    the query string, in order: [m[key] = append(m[key], value)]. *)
Definition url_Query (pairs : list (string * string)) : gmap string (list string) :=
  fold_left (fun m kv => <[kv.1 := default [] (m !! kv.1) ++ [kv.2]]> m) pairs ∅.


(** The values of the key [k] among the pairs, in order of appearance. *)
Definition values_of (k : string) (pairs : list (string * string)) : list string :=
  List.map snd (List.filter (fun kv => String.eqb kv.1 k) pairs).

End go.

(** ** [storage/pgsql/certauth.go] *)
Module pgsql.
Import mdm.

(** Modelled from the spec: the table declaration is not under src/.
    [cert_auth_associations(id PK part, sha256 PK part, created_at,
    updated_at)]; both timestamps of a new row are the time of insertion. *)
Record Row := {
  id : string;
  sha256 : string;
  created_at : Z;
  updated_at : Z;
}.

Inductive Column := col_id | col_sha256.

Definition column (c : Column) (row : Row) : string :=
  match c with col_id => id row | col_sha256 => sha256 row end.

(** A WHERE clause [c1 = $1 AND c2 = $2 ...] with its arguments bound;
    text comparison is exact, byte for byte. *)
Definition where_ (conds : list (Column * string)) (row : Row) : bool :=
  forallb (fun '(c, v) => String.eqb (column c row) v) conds.

(** The database behind [s.db]: the rows of the table in storage order,
    the server clock read by [now()], and [fault]: when it is [Some e] a
    statement fails with [e] (lost connection, cancelled context) and
    touches nothing. *)
Record DB := {
  cert_auth_associations : list Row;
  now : Z;
  fault : option error;
}.

Record PgSQLStorage := { db : DB }.

(** The rows of the table behind [s]. *)
Definition rows (s : PgSQLStorage) : list Row := cert_auth_associations (db s).

(** The condition [id = a AND sha256 = b], which is also the condition of
    a conflict on the primary key. *)
Definition pair (a b : string) : Row -> bool :=
  where_ [(col_id, a); (col_sha256, b)].

(** [DO UPDATE SET updated_at = t] on the rows in conflict with [(a, b)]. *)
Definition touch (t : Z) (a b : string) (row : Row) : Row :=
  if pair a b row
  then {| id := id row; sha256 := sha256 row;
          created_at := created_at row; updated_at := t |}
  else row.

(** The server clock moves to [t]. *)
Definition set_now (t : Z) (s : PgSQLStorage) : PgSQLStorage :=
  {| db := {| cert_auth_associations := cert_auth_associations (db s);
              now := t; fault := fault (db s) |} |}.

(** The primary key [cert_auth_associations_pkey]: no two rows agree on
    [(id, sha256)]. *)
Fixpoint pkey (rows : list Row) : bool :=
  match rows with
  | [] => true
  | r :: rest =>
      negb (existsb (pair (id r) (sha256 r)) rest) && pkey rest
  end.

(** [db.QueryRowContext(ctx, `SELECT COUNT( * ) FROM cert_auth_associations
    WHERE ...`, args...).Scan(&ct)]: the value left in [ct] and the error. *)
Definition QueryRow_count (d : DB) (conds : list (Column * string)) : Z * option error :=
  match fault d with
  | Some e => (0, Some e)
  | None => (Z.of_nat (length (List.filter (where_ conds) (cert_auth_associations d))), None)
  end.

(** [db.QueryRowContext(ctx, `SELECT id FROM cert_auth_associations WHERE
    ... LIMIT 1`, args...).Scan(&id)]: [sql.ErrNoRows] when no row matches. *)
Definition QueryRow_id_limit1 (d : DB) (conds : list (Column * string)) : string * option error :=
  match fault d with
  | Some e => ("", Some e)
  | None =>
      match List.filter (where_ conds) (cert_auth_associations d) with
      | [] => ("", Some sql_ErrNoRows)
      | row :: _ => (id row, None)
      end
  end.

(** [db.ExecContext(ctx, `INSERT INTO cert_auth_associations (id, sha256)
    VALUES ($1, $2) ON CONFLICT ON CONSTRAINT cert_auth_associations_pkey
    DO UPDATE SET updated_at=now();`, a1, a2)]. *)
Definition Exec_upsert (d : DB) (a1 a2 : string) : option error * DB :=
  match fault d with
  | Some e => (Some e, d)
  | None =>
      let conflict := pair a1 a2 in
      let rows := cert_auth_associations d in
      let rows' :=
        if existsb conflict rows
        then List.map (touch (now d) a1 a2) rows
        else rows ++ [{| id := a1; sha256 := a2;
                         created_at := now d; updated_at := now d |}] in
      (None, {| cert_auth_associations := rows'; now := now d; fault := fault d |})
  end.

Section Storage.
Context `{GoTypes} `{!go.Library}.

(** [r.ID], a field of the embedded [*EnrollID]: [None] stands for the
    nil-pointer panic of a request without enrollment id. *)
Definition Request_ID (r : Request) : option string :=
  ID <$> Request_EnrollID r.

(** Executes SQL statements that return a single COUNT( * ) of rows. *)
Definition queryRowContextRowExists (s : PgSQLStorage) (c : GoContext)
    (conds : list (Column * string)) : bool * option error :=
  let '(ct, err) := QueryRow_count (db s) conds in
  (0 <? ct, err).

Definition EnrollmentHasCertHash (s : PgSQLStorage) (r : Request) (_ : string)
    : option (bool * option error) :=
  rid ← Request_ID r;
  Some (queryRowContextRowExists s (Request_Context r) [(col_id, rid)]).

Definition HasCertHash (s : PgSQLStorage) (r : Request) (hash : string)
    : option (bool * option error) :=
  Some (queryRowContextRowExists s (Request_Context r)
          [(col_sha256, go.strings_ToLower hash)]).

Definition IsCertHashAssociated (s : PgSQLStorage) (r : Request) (hash : string)
    : option (bool * option error) :=
  rid ← Request_ID r;
  Some (queryRowContextRowExists s (Request_Context r)
          [(col_id, rid); (col_sha256, go.strings_ToLower hash)]).

(** The result is the error and the storage after the statement. *)
Definition AssociateCertHash (s : PgSQLStorage) (r : Request) (hash : string)
    : option (option error * PgSQLStorage) :=
  rid ← Request_ID r;
  let '(err, d) := Exec_upsert (db s) rid (go.strings_ToLower hash) in
  Some (err, {| db := d |}).

Definition EnrollmentFromHash (s : PgSQLStorage) (c : GoContext) (hash : string)
    : string * option error :=
  let '(rid, err) := QueryRow_id_limit1 (db s) [(col_sha256, hash)] in
  match err with
  | Some e => if errors_Is_ErrNoRows e then ("", None) else (rid, err)
  | None => (rid, err)
  end.

End Storage.
End pgsql.

(** ** The HTTP adapter: package [mdm] under [http/] *)
Module http.
Import mdm effects.

Section Handlers.
Context `{GoTypes} `{!Externals} `{!go.Library}.

(** [*http.Request]: its context and the decoded key/value pairs of
    [r.URL.RawQuery], in order of appearance. *)
Record HTTPRequest := {
  http_Context : GoContext;
  URL_RawQuery : list (string * string);
}.

(** RequestFromHTTP adapts r to an MDM request.  [None] stands for the
    index-out-of-range panic of [v[0]] on an empty slice. *)
Definition RequestFromHTTP (r : HTTPRequest) : option Request :=
  let m := NewRequestWithContext (http_Context r) (GetCert (http_Context r)) in
  let q := go.url_Query (URL_RawQuery r) in
  if (0 <? size q)%nat then
    params ← map_fold
      (fun k v (acc : option (gmap string string)) =>
         p ← acc; v0 ← head v; Some (<[k := v0]> p))
      (Some ∅) q;
    Some {| Request_EnrollID := Request_EnrollID m;
            Request_Certificate := Request_Certificate m;
            Params := Some params;
            ctx := ctx m |}
  else Some m.

(** Calls of the handlers on their collaborators. *)
Inductive Call : Type -> Type :=
| ReadAllAndReplaceBody (r : HTTPRequest) : Call (bytes * option error)
| CheckinRequest (svc : CheckinService) (r : Request) (bodyBytes : bytes)
    : Call (bytes * option error)
| CommandAndReportResultsRequest (svc : CommandService) (r : Request) (bodyBytes : bytes)
    : Call (bytes * option error).

(** A line of [ctxlog.Logger(ctx, logger).Info(keyvals...)]. *)
Record LogLine := {
  log_ctx : GoContext;
  log_logger : Logger;
  log_keyvals : list LogValue;
}.

Definition Handler : Type :=
  go.ResponseWriter -> HTTPRequest -> Prog LogLine Call (option go.ResponseWriter).

(** The error branch shared by both handlers, from
    [logs := []interface{}{"msg", msg}] to [http.Error]. *)
Definition report_error (logger : Logger) (msg : string) (w : go.ResponseWriter)
    (r : HTTPRequest) (err : error) : Prog LogLine Call (option go.ResponseWriter) :=
  let logs := [LStr "msg"; LStr msg] in
  let httpStatus := go.http_StatusInternalServerError in
  let '(httpStatus, err) :=
    match errors_As_HTTPStatusError err with
    | Some (status, cause) => (status, fmt_Errorf "HTTP error: %w" cause)
    | None => (httpStatus, err)
    end in
  let '(logs, err) :=
    match errors_As_ParseError err with
    | Some (cause, content) =>
        (logs ++ [LStr "content"; LStr (string_of_bytes content)],
         fmt_Errorf "parse error: %w" cause)
    | None => (logs, err)
    end in
  let logs := logs ++ [LStr "http_status"; LInt httpStatus; LStr "err"; LErr (Some err)] in
  say {| log_ctx := http_Context r; log_logger := logger; log_keyvals := logs |};;
  mret (go.http_Error w (go.http_StatusText httpStatus) httpStatus).

(** The failure of [ReadAllAndReplaceBody] in both handlers. *)
Definition report_read_error (logger : Logger) (w : go.ResponseWriter)
    (r : HTTPRequest) (err : error) : Prog LogLine Call (option go.ResponseWriter) :=
  say {| log_ctx := http_Context r; log_logger := logger;
         log_keyvals := [LStr "msg"; LStr "reading body"; LStr "err"; LErr (Some err)] |};;
  mret (go.http_Error w
          (go.http_StatusText go.http_StatusInternalServerError)
          go.http_StatusInternalServerError).

(** CheckinHandler decodes an MDM check-in request and adapts it to
    service.  [None] as the handler is the panic on a nil service or
    logger; [None] as its result a panic inside [RequestFromHTTP] or
    [http.Error]. *)
Definition CheckinHandler (svc : option CheckinService) (logger : option Logger)
    : option Handler :=
  svc ← svc;
  logger ← logger;
  Some (fun w r =>
    '(bodyBytes, err) ← call (ReadAllAndReplaceBody r);
    match err with
    | Some e => report_read_error logger w r e
    | None =>
        match RequestFromHTTP r with
        | None => mret None
        | Some m =>
            '(respBytes, err) ← call (CheckinRequest svc m bodyBytes);
            w ← match err with
                | Some e => report_error logger "check-in request" w r e
                | None => mret (Some w)
                end;
            mret (go.Write respBytes <$> w)
        end
    end).

(** CommandAndReportResultsHandler decodes an MDM command request and
    adapts it to service. *)
Definition CommandAndReportResultsHandler (svc : CommandService) (logger : Logger)
    : Handler :=
  fun w r =>
    '(bodyBytes, err) ← call (ReadAllAndReplaceBody r);
    match err with
    | Some e => report_read_error logger w r e
    | None =>
        match RequestFromHTTP r with
        | None => mret None
        | Some m =>
            '(respBytes, err) ← call (CommandAndReportResultsRequest svc m bodyBytes);
            w ← match err with
                | Some e => report_error logger "command report results" w r e
                | None => mret (Some w)
                end;
            mret (go.Write respBytes <$> w)
        end
    end.

End Handlers.
End http.

(** ** The main service: package [nanomdm] *)
Module nanomdm.
Import mdm effects.

Section Service.
Context `{GoTypes} `{!Externals}.

(** Service is the main NanoMDM service which dispatches to storage. *)
Record Service := {
  logger : Logger;
  normalizer : Enrollment -> option EnrollID;
  store : ServiceStore;
  (* Declarative Management *)
  dm : option DeclarativeManagementHandler;
  (* UserAuthenticate processor *)
  ua : option UserAuthenticateHandler;
  (* GetToken handler *)
  gt : option GetTokenHandler;
}.

(** normalize generates enrollment IDs that are used by other services
    and the storage backend.  Device enrollments are identified by the
    UDID or EnrollmentID.  User enrollments are then appended after a
    colon. *)
Definition normalize (e : Enrollment) : option EnrollID :=
  r ← Resolved e;
  let eid := {| Type_ := Resolved_Type r; ID := DeviceChannelID r; ParentID := "" |} in
  Some (if IsUserChannel r
        then {| Type_ := Type_ eid;
                ID := ID eid +:+ ":" +:+ UserChannelID r;
                ParentID := DeviceChannelID r |}
        else eid).

Definition Option : Type := Service -> Service.

Definition WithLogger (l : Logger) : Option := fun s =>
  {| logger := l; normalizer := normalizer s; store := store s;
     dm := dm s; ua := ua s; gt := gt s |}.

Definition WithDeclarativeManagement (h : option DeclarativeManagementHandler) : Option :=
  fun s =>
  {| logger := logger s; normalizer := normalizer s; store := store s;
     dm := h; ua := ua s; gt := gt s |}.

(** WithUserAuthenticate configures a UserAuthenticate check-in message handler. *)
Definition WithUserAuthenticate (h : option UserAuthenticateHandler) : Option :=
  fun s =>
  {| logger := logger s; normalizer := normalizer s; store := store s;
     dm := dm s; ua := h; gt := gt s |}.

(** WithGetToken configures a GetToken check-in message handler. *)
Definition WithGetToken (h : option GetTokenHandler) : Option := fun s =>
  {| logger := logger s; normalizer := normalizer s; store := store s;
     dm := dm s; ua := ua s; gt := h |}.

(** New returns a new NanoMDM main service. *)
Definition New (st : ServiceStore) (opts : list Option) : Service :=
  fold_left (fun s opt => opt s) opts
    {| logger := log_NopLogger; normalizer := normalize; store := st;
       dm := None; ua := None; gt := None |}.

(** Calls of the service on the storage backend and on the optional
    handlers. *)
Inductive Call : Type -> Type :=
| StoreAuthenticate (st : ServiceStore) (r : Request) (m : mdm.Authenticate)
    : Call (option error)
| StoreTokenUpdate (st : ServiceStore) (r : Request) (m : mdm.TokenUpdate)
    : Call (option error)
| Disable (st : ServiceStore) (r : Request) : Call (option error)
| ClearQueue (st : ServiceStore) (r : Request) : Call (option error)
| StoreBootstrapToken (st : ServiceStore) (r : Request) (m : mdm.SetBootstrapToken)
    : Call (option error)
| RetrieveBootstrapToken (st : ServiceStore) (r : Request) (m : mdm.GetBootstrapToken)
    : Call (option BootstrapToken * option error)
| StoreCommandReport (st : ServiceStore) (r : Request) (results : CommandResults)
    : Call (option error)
| RetrieveNextCommand (st : ServiceStore) (r : Request) (skipNotNow : bool)
    : Call (option Command * option error)
| ua_UserAuthenticate (h : UserAuthenticateHandler) (r : Request)
    (m : mdm.UserAuthenticate) : Call (bytes * option error)
| dm_DeclarativeManagement (h : DeclarativeManagementHandler) (r : Request)
    (m : mdm.DeclarativeManagement) : Call (bytes * option error)
| gt_GetToken (h : GetTokenHandler) (r : Request) (m : mdm.GetToken)
    : Call (option GetTokenResponse * option error).

(** A line of [ctxlog.Logger(ctx, logger)] at [Info] or [Debug]. *)
Record LogLine := {
  log_ctx : GoContext;
  log_logger : Logger;
  log_level : LogLevel;
  log_keyvals : list LogValue;
}.

Abbreviation M := (Prog LogLine Call).

Definition log (c : GoContext) (l : Logger) (lvl : LogLevel) (kvs : list LogValue)
    : M unit :=
  say {| log_ctx := c; log_logger := l; log_level := lvl; log_keyvals := kvs |}.

(** [setupRequest] updates the request [r] points to and returns a
    request and an error.  The result is, in this order: the request
    behind the caller's pointer after the call, the returned request,
    the returned error. *)
Definition setupRequest (s : Service) (r : Request) (e : Enrollment)
    : M (Request * Request * option error) :=
  match Request_EnrollID r with
  | Some eid =>
      if negb (String.eqb (ID eid) "")
      then log (Request_Context r) (logger s) Debug
             [LStr "msg"; LStr "overwriting enrollment id"]
      else mret tt
  | None => mret tt
  end;;
  let r := set_EnrollID r (normalizer s e) in
  match Validate (Request_EnrollID r) with
  | Some err => mret (r, r, Some err)
  | None =>
      let c := newContextWithValues (Request_Context r) r in
      let c := ctxlog_AddFunc_ctxKVs c in
      mret (r, WithContext r c, None)
  end.

(** The service methods return the request behind the caller's pointer
    after the call, then the Go results. *)

(** Authenticate Check-in message implementation. *)
Definition Authenticate (s : Service) (r : Request) (message : mdm.Authenticate)
    : M (Request * option error) :=
  '(r0, r, err) ← setupRequest s r (Authenticate_Enrollment message);
  match err with
  | Some e => mret (r0, Some e)
  | None =>
      let logs := [LStr "msg"; LStr "Authenticate"] in
      let logs :=
        if negb (String.eqb (SerialNumber message) "")
        then logs ++ [LStr "serial_number"; LStr (SerialNumber message)]
        else logs in
      log (Request_Context r) (logger s) Info logs;;
      err ← call (StoreAuthenticate (store s) r message);
      match err with
      | Some e => mret (r0, Some e)
      | None =>
          (* clear the command queue for any enrollment or sub-enrollment. *)
          err ← call (ClearQueue (store s) r);
          match err with
          | Some e => mret (r0, Some e)
          | None =>
              (* then, disable the enrollment or any sub-enrollment *)
              err ← call (Disable (store s) r);
              mret (r0, err)
          end
      end
  end.

(** TokenUpdate Check-in message implementation. *)
Definition TokenUpdate (s : Service) (r : Request) (message : mdm.TokenUpdate)
    : M (Request * option error) :=
  '(r0, r, err) ← setupRequest s r (TokenUpdate_Enrollment message);
  match err with
  | Some e => mret (r0, Some e)
  | None =>
      log (Request_Context r) (logger s) Info [LStr "msg"; LStr "TokenUpdate"];;
      err ← call (StoreTokenUpdate (store s) r message);
      mret (r0, err)
  end.

(** CheckOut Check-in message implementation. *)
Definition CheckOut (s : Service) (r : Request) (message : mdm.CheckOut)
    : M (Request * option error) :=
  '(r0, r, err) ← setupRequest s r (CheckOut_Enrollment message);
  match err with
  | Some e => mret (r0, Some e)
  | None =>
      log (Request_Context r) (logger s) Info [LStr "msg"; LStr "CheckOut"];;
      err ← call (Disable (store s) r);
      mret (r0, err)
  end.

(** UserAuthenticate Check-in message implementation *)
Definition UserAuthenticate (s : Service) (r : Request) (message : mdm.UserAuthenticate)
    : M (Request * (bytes * option error)) :=
  '(r0, r, err) ← setupRequest s r (UserAuthenticate_Enrollment message);
  match err with
  | Some e => mret (r0, ([], Some e))
  | None =>
      log (Request_Context r) (logger s) Info
        [LStr "msg"; LStr "UserAuthenticate";
         LStr "digest_response"; LBool (negb (String.eqb (DigestResponse message) ""))];;
      match ua s with
      | None => mret (r0, ([], Some (errors_New "no UserAuthenticate handler")))
      | Some h =>
          res ← call (ua_UserAuthenticate h r message);
          mret (r0, res)
      end
  end.

Definition SetBootstrapToken (s : Service) (r : Request) (message : mdm.SetBootstrapToken)
    : M (Request * option error) :=
  '(r0, r, err) ← setupRequest s r (SetBootstrapToken_Enrollment message);
  match err with
  | Some e => mret (r0, Some e)
  | None =>
      log (Request_Context r) (logger s) Info [LStr "msg"; LStr "SetBootstrapToken"];;
      err ← call (StoreBootstrapToken (store s) r message);
      mret (r0, err)
  end.

Definition GetBootstrapToken (s : Service) (r : Request) (message : mdm.GetBootstrapToken)
    : M (Request * (option BootstrapToken * option error)) :=
  '(r0, r, err) ← setupRequest s r (GetBootstrapToken_Enrollment message);
  match err with
  | Some e => mret (r0, (None, Some e))
  | None =>
      log (Request_Context r) (logger s) Info [LStr "msg"; LStr "GetBootstrapToken"];;
      res ← call (RetrieveBootstrapToken (store s) r message);
      mret (r0, res)
  end.

(** DeclarativeManagement Check-in message implementation. Calls out to
    the service's DM handler (if configured). *)
Definition DeclarativeManagement (s : Service) (r : Request)
    (message : mdm.DeclarativeManagement) : M (Request * (bytes * option error)) :=
  '(r0, r, err) ← setupRequest s r (DeclarativeManagement_Enrollment message);
  match err with
  | Some e => mret (r0, ([], Some e))
  | None =>
      log (Request_Context r) (logger s) Info
        [LStr "msg"; LStr "DeclarativeManagement";
         LStr "endpoint"; LStr (Endpoint message)];;
      match dm s with
      | None => mret (r0, ([], Some (errors_New "no Declarative Management handler")))
      | Some h =>
          res ← call (dm_DeclarativeManagement h r message);
          mret (r0, res)
      end
  end.

(** GetToken implements the GetToken Check-in message interface. *)
Definition GetToken (s : Service) (r : Request) (message : mdm.GetToken)
    : M (Request * (option GetTokenResponse * option error)) :=
  '(r0, r, err) ← setupRequest s r (GetToken_Enrollment message);
  match err with
  | Some e => mret (r0, (None, Some e))
  | None =>
      log (Request_Context r) (logger s) Info
        [LStr "msg"; LStr "GetToken";
         LStr "token_service_type"; LStr (TokenServiceType message)];;
      match gt s with
      | None => mret (r0, (None, Some (errors_New "no GetToken handler")))
      | Some h =>
          res ← call (gt_GetToken h r message);
          mret (r0, res)
      end
  end.

(** CommandAndReportResults command report and next-command request
    implementation. *)
Definition CommandAndReportResults (s : Service) (r : Request) (results : CommandResults)
    : M (Request * (option Command * option error)) :=
  '(r0, r, err) ← setupRequest s r (CommandResults_Enrollment results);
  match err with
  | Some e => mret (r0, (None, Some e))
  | None =>
      let logs := [LStr "status"; LStr (Status results)] in
      let logs :=
        if negb (String.eqb (CommandUUID results) "")
        then logs ++ [LStr "command_uuid"; LStr (CommandUUID results)]
        else logs in
      log (Request_Context r) (logger s) Info logs;;
      err ← call (StoreCommandReport (store s) r results);
      match err with
      | Some e => mret (r0, (None, Some (fmt_Errorf "storing command report: %w" (Some e))))
      | None =>
          '(cmd, err) ← call (RetrieveNextCommand (store s) r
                                (String.eqb (Status results) "NotNow"));
          match err with
          | Some e =>
              mret (r0, (None, Some (fmt_Errorf "retrieving next command: %w" (Some e))))
          | None =>
              match cmd with
              | Some c =>
                  log (Request_Context r) (logger s) Debug
                    [LStr "msg"; LStr "command retrieved";
                     LStr "command_uuid"; LStr (Command_CommandUUID c);
                     LStr "request_type"; LStr (RequestType c)];;
                  mret (r0, (Some c, None))
              | None =>
                  log (Request_Context r) (logger s) Debug
                    [LStr "msg"; LStr "no command retrieved"];;
                  mret (r0, (None, None))
              end
          end
      end
  end.

(** *** Reading traces of the service *)

Definition is_store (X : Type) (c : Call X) : bool :=
  match c with
  | StoreAuthenticate _ _ _ | StoreTokenUpdate _ _ _ | Disable _ _ | ClearQueue _ _
  | StoreBootstrapToken _ _ _ | RetrieveBootstrapToken _ _ _
  | StoreCommandReport _ _ _ | RetrieveNextCommand _ _ _ => true
  | ua_UserAuthenticate _ _ _ | dm_DeclarativeManagement _ _ _ | gt_GetToken _ _ _ => false
  end.

Definition is_handler (X : Type) (c : Call X) : bool := negb (is_store c).

Definition any_call (X : Type) (c : Call X) : bool := true.

(** The request a call carries. *)
Definition request_of (X : Type) (c : Call X) : Request :=
  match c with
  | StoreAuthenticate _ r _ | StoreTokenUpdate _ r _ | Disable _ r | ClearQueue _ r
  | StoreBootstrapToken _ r _ | RetrieveBootstrapToken _ r _
  | StoreCommandReport _ r _ | RetrieveNextCommand _ r _
  | ua_UserAuthenticate _ r _ | dm_DeclarativeManagement _ r _ | gt_GetToken _ r _ => r
  end.

(** The [skipNotNow] arguments of the RetrieveNextCommand calls of a trace. *)
Fixpoint skipNotNow_flags (t : list (Event LogLine Call)) : list bool :=
  match t with
  | [] => []
  | Ev (RetrieveNextCommand _ _ b) _ :: t' => b :: skipNotNow_flags t'
  | _ :: t' => skipNotNow_flags t'
  end.

(** The request with the enrollment id of [e] installed: what
    [setupRequest] leaves behind the caller's pointer. *)
Definition installed (s : Service) (r : Request) (e : Enrollment) : Request :=
  set_EnrollID r (normalizer s e).

(** The request [setupRequest] returns when validation passes: the
    installed one under the context that carries its values. *)
Definition prepared (s : Service) (r : Request) (e : Enrollment) : Request :=
  let r1 := installed s r e in
  WithContext r1 (ctxlog_AddFunc_ctxKVs (newContextWithValues (Request_Context r1) r1)).

(** The debug line of [setupRequest] for a request that already has a
    non-empty enrollment id. *)
Definition overwriting (s : Service) (r : Request) : list (Event LogLine Call) :=
  match Request_EnrollID r with
  | Some eid =>
      if negb (String.eqb (ID eid) "")
      then [Logged {| log_ctx := Request_Context r; log_logger := logger s;
                      log_level := Debug;
                      log_keyvals := [LStr "msg"; LStr "overwriting enrollment id"] |}]
      else []
  | None => []
  end.

(** [carries r' ev]: a call of the trace carries the request [r']. *)
Definition carries (r' : Request) (ev : Event LogLine Call) : Prop :=
  match ev with
  | Ev c _ => request_of c = r'
  | Logged _ => True
  end.

(** A run of the method body [p], for request [r] and a message with the
    enrollment block [e], starts with [setupRequest]: the enrollment id
    of [e] is installed on the caller's request; when validation fails
    with [err] the result is [failure err], the state is unchanged and
    the trace is at most the debug line, without any call; when it
    passes, every call carries the prepared request, whose enrollment id
    is the normalized one. *)
Definition starts_with_setupRequest {A W : Type} (h : Impl Call W) (w : W)
    (s : Service) (r : Request) (e : Enrollment)
    (p : M (Request * A)) (failure : error -> A) : Prop :=
  let '(res, w', t) := run h p w in
  res.1 = installed s r e
  /\ match Validate (normalizer s e) with
     | Some err =>
         res.2 = failure err /\ w' = w /\ t = overwriting s r
         /\ calls any_call t = []
     | None =>
         Request_EnrollID (prepared s r e) = normalizer s e
         /\ Forall (carries (prepared s r e)) t
     end.

End Service.
End nanomdm.

(** ** Instances used to run the embedded code on concrete inputs *)
Module examples.
Import mdm.

(** Every opaque Go type carries one value. *)
Definition types : GoTypes :=
  {| GoContext := unit; Certificate := unit; Logger := unit; ServiceStore := unit;
     DeclarativeManagementHandler := unit; UserAuthenticateHandler := unit;
     GetTokenHandler := unit; CheckinService := unit; CommandService := unit |}.

(** Modelled from the spec: [Enrollment.Resolved] is not under src/.
    Normalizer, resolution rules: prefer UDID for the device id, else
    EnrollmentID; on a user channel prefer UserID, else UserShortName; an
    empty block does not resolve. *)
Definition spec_Resolved (e : Enrollment) : option ResolvedEnrollment :=
  let dev := if String.eqb (UDID e) "" then EnrollmentID e else UDID e in
  let usr := if String.eqb (UserID e) "" then UserShortName e else UserID e in
  if String.eqb dev "" then None
  else Some {| Resolved_Type := if String.eqb usr "" then Device else User;
               DeviceChannelID := dev;
               UserChannelID := usr;
               IsUserChannel := negb (String.eqb usr "") |}.

(** Modelled from the spec: [EnrollID.Validate] is not under src/.
    Validation fails when there is no id or the id is empty. *)
Definition spec_Validate (eid : option EnrollID) : option error :=
  match eid with
  | None => Some (errors_New "nil enrollment ID")
  | Some e => if String.eqb (ID e) "" then Some (errors_New "empty enrollment ID") else None
  end.

Definition externals : @Externals types :=
  {| GetCert := fun _ : @GoContext types => None;
     Resolved := spec_Resolved;
     Validate := spec_Validate;
     newContextWithValues := fun c _ => c;
     ctxlog_AddFunc_ctxKVs := fun c => c;
     log_NopLogger := tt : @Logger types |}.

Lemma lower_byte_idempotent (c : ascii) : go.lower_byte (go.lower_byte c) = go.lower_byte c.
Proof.
  destruct c as [[] [] [] [] [] [] [] []]; reflexivity.
Qed.

Lemma lower_ASCII_idempotent (s : string) :
  go.lower_ASCII (go.lower_ASCII s) = go.lower_ASCII s.
Proof.
  induction s as [|c s IH]; simpl; [reflexivity|].
  rewrite lower_byte_idempotent, IH. reflexivity.
Qed.

(** The library on the inputs of the examples.  Their strings are ASCII,
    where [strings.ToLower] lowers byte by byte; their bodies have no binary
    byte and match no signature of the sniffer, for which
    [http.DetectContentType] answers plain text. *)
Definition library : go.Library :=
  {| go.strings_ToLower := go.lower_ASCII;
     go.ToLower_ASCII := fun s _ => eq_refl;
     go.ToLower_idempotent := lower_ASCII_idempotent;
     go.http_DetectContentType := fun _ => "text/plain; charset=utf-8" |}.

Definition device_AAA : Enrollment :=
  {| UDID := "AAA"; EnrollmentID := ""; UserID := ""; UserShortName := "" |}.
Definition user_AAA_BBB : Enrollment :=
  {| UDID := "AAA"; EnrollmentID := ""; UserID := "BBB"; UserShortName := "" |}.
Definition empty_block : Enrollment :=
  {| UDID := ""; EnrollmentID := ""; UserID := ""; UserShortName := "" |}.

Definition request : @Request types :=
  @NewRequestWithContext types tt None.

Definition request_AAA : @Request types :=
  set_EnrollID request (Some {| Type_ := Device; ID := "AAA"; ParentID := "" |}).

(** An empty database whose clock shows 0. *)
Definition empty_storage : pgsql.PgSQLStorage :=
  {| pgsql.db := {| pgsql.cert_auth_associations := []; pgsql.now := 0;
                    pgsql.fault := None |} |}.

(** A storage whose database cannot be reached. *)
Definition unreachable_storage : pgsql.PgSQLStorage :=
  {| pgsql.db := {| pgsql.cert_auth_associations := []; pgsql.now := 0;
                    pgsql.fault := Some (errors_New "connection refused") |} |}.

(** A storage backend and handlers that always succeed, over a state that
    counts the calls. *)
Definition counting : effects.Impl (@nanomdm.Call types) nat :=
  fun X c n =>
    (match c in nanomdm.Call X return X with
     | nanomdm.StoreAuthenticate _ _ _ | nanomdm.StoreTokenUpdate _ _ _
     | nanomdm.Disable _ _ | nanomdm.ClearQueue _ _
     | nanomdm.StoreBootstrapToken _ _ _ | nanomdm.StoreCommandReport _ _ _ => None
     | nanomdm.RetrieveBootstrapToken _ _ _ => (None, None)
     | nanomdm.RetrieveNextCommand _ _ _ => (None, None)
     | nanomdm.ua_UserAuthenticate _ _ _ | nanomdm.dm_DeclarativeManagement _ _ _ =>
         ([], None)
     | nanomdm.gt_GetToken _ _ _ => (None, None)
     end, S n).

Definition service : @nanomdm.Service types :=
  @nanomdm.New types externals tt [].

Definition service_with_handlers : @nanomdm.Service types :=
  @nanomdm.New types externals tt
    [@nanomdm.WithUserAuthenticate types (Some tt);
     @nanomdm.WithDeclarativeManagement types (Some tt);
     @nanomdm.WithGetToken types (Some tt)].

Definition authenticate_AAA : mdm.Authenticate :=
  {| Authenticate_Enrollment := device_AAA; SerialNumber := "C02"; Authenticate_Raw := [] |}.
Definition checkout_AAA : mdm.CheckOut :=
  {| CheckOut_Enrollment := device_AAA; CheckOut_Raw := [] |}.
Definition report_NotNow : mdm.CommandResults :=
  {| CommandResults_Enrollment := device_AAA; CommandUUID := "U1";
     Status := "NotNow"; CommandResults_Raw := [] |}.
Definition report_Idle : mdm.CommandResults :=
  {| CommandResults_Enrollment := device_AAA; CommandUUID := "";
     Status := "Idle"; CommandResults_Raw := [] |}.

(** An HTTP layer whose body read succeeds and whose service answers every
    request with the error [err] and no bytes. *)
Definition failing_service (err : error) : effects.Impl (@http.Call types) unit :=
  fun X c w =>
    (match c in http.Call X return X with
     | http.ReadAllAndReplaceBody _ => ([], None)
     | http.CheckinRequest _ _ _ => ([], Some err)
     | http.CommandAndReportResultsRequest _ _ _ => ([], Some err)
     end, w).

Definition http_request (query : list (string * string)) : @http.HTTPRequest types :=
  {| http.http_Context := tt : @GoContext types; http.URL_RawQuery := query |}.


(** An HTTPStatusError around a ParseError, as a decoding failure is
    reported. *)
Definition status_around_parse : error :=
  HTTPStatusError 400
    (Some (fmt_Errorf "decoding check-in: %w"
             (Some (ParseError (Some (errors_New "EOF")) (list_byte_of_string "<plist>"))))).

End examples.

(** ** Invariants of the cert-auth table *)
Module certauth.
Import mdm pgsql.

Section Invariants.
Context `{!go.Library}.

(** Every stored hash is spelled in lowercase. *)
Definition lowercase (l : list Row) : bool :=
  forallb (fun row => String.eqb (go.strings_ToLower (sha256 row)) (sha256 row)) l.

End Invariants.

(** Two enrollments, bound to one certificate each, the second one shared
    with nobody. *)
Definition two_enrollments : PgSQLStorage :=
  {| db := {| cert_auth_associations :=
                [{| id := "AAA"; sha256 := "ab12"; created_at := 1; updated_at := 1 |};
                 {| id := "BBB"; sha256 := "cd34"; created_at := 2; updated_at := 2 |}];
              now := 5; fault := None |} |}.

Definition request_BBB : @Request examples.types :=
  set_EnrollID examples.request (Some {| Type_ := Device; ID := "BBB"; ParentID := "" |}).

End certauth.

Module certauth_examples.
Import mdm pgsql certauth.

(** [two_enrollments] after a third certificate is associated with "AAA". *)
Definition three_associations : PgSQLStorage :=
  {| db := {| cert_auth_associations :=
                [{| id := "AAA"; sha256 := "ab12"; created_at := 1; updated_at := 1 |};
                 {| id := "BBB"; sha256 := "cd34"; created_at := 2; updated_at := 2 |};
                 {| id := "AAA"; sha256 := "ef56"; created_at := 5; updated_at := 5 |}];
              now := 5; fault := None |} |}.

Definition eid_AAA : EnrollID := {| Type_ := Device; ID := "AAA"; ParentID := "" |}.
Definition eid_BBB : EnrollID := {| Type_ := Device; ID := "BBB"; ParentID := "" |}.

End certauth_examples.

(** ** The combined handler of the HTTP adapter *)
Module mux.
Import mdm effects http.

(** [textproto.MIMEHeader.Get]: the first value of the key, or the empty
    string; the key is given in canonical form. *)
Definition Header_Get (h : gmap string (list string)) (key : string) : string :=
  match h !! key with
  | Some (v :: _) => v
  | _ => ""
  end.

(** [strings.HasPrefix(s, prefix)]. *)
Definition strings_HasPrefix (s prefix : string) : bool := String.prefix prefix s.

(** The first ParseError of the chain is met before any HTTPStatusError. *)
Fixpoint ParseError_outside (err : error) : bool :=
  match err with
  | ParseError _ _ => true
  | fmt_Errorf _ w => match w with Some e => ParseError_outside e | None => false end
  | HTTPStatusError _ _ | errors_New _ | sql_ErrNoRows => false
  end.

Section Dispatch.
Context `{GoTypes} `{!Externals} `{!go.Library}.

(** [service.CheckinAndCommandService] embeds both service interfaces: a
    value of it is used as either. *)
Record CheckinAndCommandService := {
  Checkin : CheckinService;
  CommandAndReportResults : CommandService;
}.

(** [*http.Request] as the combined handler reads it: the request the two
    handlers see, and the header. *)
Record HTTPRequestWithHeader := {
  request : HTTPRequest;
  Header : gmap string (list string);
}.

(** CheckinAndCommandHandler handles both check-in and command requests. *)
Definition CheckinAndCommandHandler (service : CheckinAndCommandService) (logger : Logger)
    : go.ResponseWriter -> HTTPRequestWithHeader
      -> Prog LogLine Call (option go.ResponseWriter) :=
  fun w r =>
    let contentType := Header_Get (Header r) "Content-Type" in
    if strings_HasPrefix contentType "application/x-apple-aspen-mdm-checkin"
    then
      match CheckinHandler (Some (Checkin service)) (Some logger) with
      | Some handler => handler w (request r)
      | None => mret None
      end
    else
      (* assume a non-check-in is a command request *)
      CommandAndReportResultsHandler (CommandAndReportResults service) logger w (request r).

(** The calls of the adapter on each of the two services. *)
Definition is_checkin (X : Type) (c : Call X) : bool :=
  match c with
  | CheckinRequest _ _ _ => true
  | ReadAllAndReplaceBody _ | CommandAndReportResultsRequest _ _ _ => false
  end.

Definition is_command (X : Type) (c : Call X) : bool :=
  match c with
  | CommandAndReportResultsRequest _ _ _ => true
  | ReadAllAndReplaceBody _ | CheckinRequest _ _ _ => false
  end.

End Dispatch.

(** An HTTP layer whose body read fails. *)
Definition unreadable_body (err : error) : Impl (@http.Call examples.types) unit :=
  fun X c w =>
    (match c in http.Call X return X with
     | http.ReadAllAndReplaceBody _ => ([], Some err)
     | http.CheckinRequest _ _ _ => ([], None)
     | http.CommandAndReportResultsRequest _ _ _ => ([], None)
     end, w).

(** An HTTP layer whose services answer every request with [resp]. *)
Definition answering (resp : bytes) : Impl (@http.Call examples.types) unit :=
  fun X c w =>
    (match c in http.Call X return X with
     | http.ReadAllAndReplaceBody _ => ([], None)
     | http.CheckinRequest _ _ _ => (resp, None)
     | http.CommandAndReportResultsRequest _ _ _ => (resp, None)
     end, w).

Definition both_services : @CheckinAndCommandService examples.types :=
  {| Checkin := tt : @CheckinService examples.types;
     CommandAndReportResults := tt : @CommandService examples.types |}.

Definition checkin_request : @HTTPRequestWithHeader examples.types :=
  {| request := examples.http_request [];
     Header := {[ "Content-Type" := ["application/x-apple-aspen-mdm-checkin; charset=utf-8"] ]} |}.

Definition command_request : @HTTPRequestWithHeader examples.types :=
  {| request := examples.http_request []; Header := ∅ |}.

End mux.

(** ** Building and reusing the service *)
Module configure.
Import mdm effects nanomdm.

(** An enrollment id part contains the delimiter. *)
Fixpoint has_colon (s : string) : bool :=
  match s with
  | EmptyString => false
  | String c s' => Ascii.eqb c ":" || has_colon s'
  end.

Section Configure.
Context `{GoTypes} `{!Externals}.

(** The options the package provides, by what they configure. *)
Inductive Setting :=
| SetLogger (l : Logger)
| SetDeclarativeManagement (h : option DeclarativeManagementHandler)
| SetUserAuthenticate (h : option UserAuthenticateHandler)
| SetGetToken (h : option GetTokenHandler).

Definition option_of (o : Setting) : Option :=
  match o with
  | SetLogger l => WithLogger l
  | SetDeclarativeManagement h => WithDeclarativeManagement h
  | SetUserAuthenticate h => WithUserAuthenticate h
  | SetGetToken h => WithGetToken h
  end.

(** A method gives the same result, final state and calls for [r] and for
    [r] with some enrollment id left on it; the traces differ by the debug
    line of [setupRequest] only. *)
Definition ignores_stale_EnrollID {A W : Type} (h : Impl Call W) (w : W) (s : Service)
    (method : Request -> Prog LogLine Call (Request * A))
    (r : Request) (stale : option EnrollID) : Prop :=
  let '(res1, w1, t1) := run h (method r) w in
  let '(res2, w2, t2) := run h (method (set_EnrollID r stale)) w in
  res1 = res2 /\ w1 = w2
  /\ calls any_call t1 = calls any_call t2
  /\ exists rest,
      t1 = overwriting s r ++ rest
      /\ t2 = overwriting s (set_EnrollID r stale) ++ rest.

End Configure.

(** The user channel "AAA:BBB" named by EnrollmentID and UserShortName. *)
Definition user_AAA_BBB_by_name : Enrollment :=
  {| UDID := ""; EnrollmentID := "AAA"; UserID := ""; UserShortName := "BBB" |}.

Definition tokenupdate_AAA : mdm.TokenUpdate :=
  {| TokenUpdate_Enrollment := examples.device_AAA; TokenUpdate_Raw := [] |}.

(** A storage backend that fails every call with [err] and still hands out
    a command. *)
Definition failing_store (err : error) : Impl (@nanomdm.Call examples.types) nat :=
  fun X c n =>
    (match c in nanomdm.Call X return X with
     | StoreAuthenticate _ _ _ | StoreTokenUpdate _ _ _
     | Disable _ _ | ClearQueue _ _
     | StoreBootstrapToken _ _ _ => Some err
     | StoreCommandReport _ _ _ => None
     | RetrieveBootstrapToken _ _ _ => (None, Some err)
     | RetrieveNextCommand _ _ _ =>
         (Some {| Command_CommandUUID := "U1"; RequestType := "DeviceInformation";
                  Command_Raw := [] |}, Some err)
     | ua_UserAuthenticate _ _ _ | dm_DeclarativeManagement _ _ _ => ([], Some err)
     | gt_GetToken _ _ _ => (None, Some err)
     end, S n).

End configure.

(** ** Log lines of the service *)
Module logging.
Import mdm effects nanomdm.

Section Logging.
Context `{GoTypes} `{!Externals}.

(** A step of a trace is not an [Info] line. *)
Definition not_Info (ev : Event LogLine Call) : Prop :=
  match ev with
  | Logged line => log_level line = Debug
  | Ev _ _ => True
  end.

(** A run of the method body [p] that passes [setupRequest] logs one
    [Info] line, through the logger of the service under the context of the
    prepared request, before anything else it does; its first two values are
    [key] and [value]. *)
Definition logs_Info_first {A W : Type} (h : Impl Call W) (w : W)
    (s : Service) (r : Request) (e : Enrollment)
    (p : Prog LogLine Call (Request * A)) (key value : string) : Prop :=
  exists line rest,
    (run h p w).2 = overwriting s r ++ Logged line :: rest
    /\ log_level line = Info
    /\ log_logger line = logger s
    /\ log_ctx line = Request_Context (prepared s r e)
    /\ firstn 2 (log_keyvals line) = [LStr key; LStr value]
    /\ Forall not_Info rest.

End Logging.
End logging.

(** * Properties *)

Unset Implicit Arguments.

(** ** Cert-auth storage *)
Section pgsql_properties.
Import mdm pgsql.

Lemma pair_true a b row : pair a b row = true <-> id row = a /\ sha256 row = b.
Proof.
  unfold pair, where_; simpl.
  rewrite andb_true_r, andb_true_iff, !String.eqb_eq. tauto.
Qed.

Lemma pair_self row : pair (id row) (sha256 row) row = true.
Proof. apply pair_true; auto. Qed.

Lemma pair_same_key a b row row' :
  pair a b row = true -> pair (id row) (sha256 row) row' = pair a b row'.
Proof. intros [-> ->]%pair_true. reflexivity. Qed.

Lemma existsb_false_filter {A} (f : A -> bool) l :
  existsb f l = false -> List.filter f l = [].
Proof.
  induction l as [|x l IH]; simpl; [reflexivity|].
  intros [-> Hl]%orb_false_iff. auto.
Qed.

Lemma filter_nil_existsb {A} (f : A -> bool) l :
  List.filter f l = [] -> existsb f l = false.
Proof.
  induction l as [|x l IH]; simpl; [reflexivity|].
  destruct (f x); [discriminate|]. auto.
Qed.

Lemma existsb_pointwise {A} (f g : A -> bool) l :
  (forall x, f x = g x) -> existsb f l = existsb g l.
Proof.
  intros Hfg. induction l as [|x l IH]; simpl; [reflexivity|].
  rewrite Hfg, IH. reflexivity.
Qed.

(** Under the primary key at most one row carries a given pair. *)
Lemma pkey_one_row a b l :
  pkey l = true -> existsb (pair a b) l = true ->
  exists row, List.filter (pair a b) l = [row].
Proof.
  induction l as [|x l IH]; simpl; [discriminate|].
  intros [Hx Hl]%andb_true_iff Hex.
  destruct (pair a b x) eqn:Hab.
  - exists x. f_equal. apply existsb_false_filter.
    apply negb_true_iff in Hx. rewrite <- Hx.
    apply existsb_pointwise. intros row.
    symmetry. apply pair_same_key. assumption.
  - simpl in Hex. auto.
Qed.

Lemma touch_id t a b row : id (touch t a b row) = id row.
Proof. unfold touch. destruct (pair a b row); reflexivity. Qed.

Lemma touch_sha256 t a b row : sha256 (touch t a b row) = sha256 row.
Proof. unfold touch. destruct (pair a b row); reflexivity. Qed.

Lemma pair_touch t a b a' b' row : pair a' b' (touch t a b row) = pair a' b' row.
Proof.
  unfold pair, where_; simpl. rewrite touch_id, touch_sha256. reflexivity.
Qed.

Lemma existsb_map_touch t a b a' b' l :
  existsb (pair a' b') (List.map (touch t a b) l) = existsb (pair a' b') l.
Proof.
  induction l as [|x l IH]; simpl; [reflexivity|].
  rewrite pair_touch, IH. reflexivity.
Qed.

Lemma pkey_map_touch t a b l : pkey (List.map (touch t a b) l) = pkey l.
Proof.
  induction l as [|x l IH]; simpl; [reflexivity|].
  rewrite touch_id, touch_sha256, existsb_map_touch, IH. reflexivity.
Qed.

Lemma filter_map_touch t a b (f : Row -> bool) l :
  (forall row, f (touch t a b row) = f row) ->
  List.filter f (List.map (touch t a b) l) = List.map (touch t a b) (List.filter f l).
Proof.
  intros Hf. induction l as [|x l IH]; simpl; [reflexivity|].
  rewrite Hf. destruct (f x); simpl; rewrite IH; reflexivity.
Qed.

Lemma map_touch_others t a b l :
  List.map (touch t a b) (List.filter (fun row => negb (pair a b row)) l)
  = List.filter (fun row => negb (pair a b row)) l.
Proof.
  induction l as [|x l IH]; simpl; [reflexivity|].
  destruct (pair a b x) eqn:Hx; simpl; [assumption|].
  rewrite IH. unfold touch. rewrite Hx. reflexivity.
Qed.

Lemma pkey_snoc l row :
  pkey l = true -> existsb (pair (id row) (sha256 row)) l = false ->
  pkey (l ++ [row]) = true.
Proof.
  induction l as [|x l IH]; simpl; [reflexivity|].
  intros [Hx Hl]%andb_true_iff [Hrx Hrl]%orb_false_iff.
  rewrite existsb_app; simpl. rewrite orb_false_r.
  apply andb_true_iff; split; [|auto].
  apply negb_true_iff in Hx. rewrite Hx; simpl.
  apply negb_true_iff.
  destruct (pair (id x) (sha256 x) row) eqn:E; [|reflexivity].
  apply pair_true in E as [E1 E2].
  rewrite <- Hrx. symmetry. apply pair_true. auto.
Qed.

(** What the upsert does to a reachable database that satisfies the
    primary key. *)
Lemma Exec_upsert_spec d a b :
  fault d = None -> pkey (cert_auth_associations d) = true ->
  exists l',
    Exec_upsert d a b = (None, {| cert_auth_associations := l'; now := now d; fault := None |})
    /\ pkey l' = true
    /\ List.filter (pair a b) l'
       = [{| id := a; sha256 := b;
             created_at := match List.filter (pair a b) (cert_auth_associations d) with
                           | row :: _ => created_at row
                           | [] => now d
                           end;
             updated_at := now d |}]
    /\ List.filter (fun row => negb (pair a b row)) l'
       = List.filter (fun row => negb (pair a b row)) (cert_auth_associations d)
    /\ length l' = (if existsb (pair a b) (cert_auth_associations d)
                    then length (cert_auth_associations d)
                    else S (length (cert_auth_associations d))).
Proof.
  intros Hf Hpk. unfold Exec_upsert. rewrite Hf.
  set (l := cert_auth_associations d) in *.
  destruct (existsb (pair a b) l) eqn:Hex.
  - exists (List.map (touch (now d) a b) l). split; [reflexivity|].
    split; [rewrite pkey_map_touch; assumption|].
    destruct (pkey_one_row _ _ _ Hpk Hex) as [row Hrow].
    assert (Hin : pair a b row = true).
    { assert (In row (List.filter (pair a b) l)) as Hi by (rewrite Hrow; left; reflexivity).
      apply filter_In in Hi. tauto. }
    split.
    { rewrite filter_map_touch by (intros; apply pair_touch).
      rewrite Hrow. simpl. unfold touch. rewrite Hin.
      apply pair_true in Hin as [-> ->]. reflexivity. }
    split.
    { rewrite filter_map_touch by (intros; rewrite pair_touch; reflexivity).
      apply map_touch_others. }
    apply length_map.
  - exists (l ++ [{| id := a; sha256 := b; created_at := now d; updated_at := now d |}]).
    split; [reflexivity|].
    split; [apply pkey_snoc; assumption|].
    rewrite !List.filter_app; simpl.
    assert (Hself : pair a b {| id := a; sha256 := b;
                                created_at := now d; updated_at := now d |} = true)
      by (apply pair_true; auto).
    rewrite Hself; simpl.
    rewrite (existsb_false_filter _ _ Hex); simpl.
    split; [reflexivity|].
    split; [apply app_nil_r|].
    rewrite length_app; simpl. lia.
Qed.

Lemma count_positive (f : Row -> bool) (l : list Row) :
  (0 <? Z.of_nat (length (List.filter f l))) = existsb f l.
Proof.
  induction l as [|x l IH]; simpl; [reflexivity|].
  destruct (f x); simpl; [|exact IH].
  apply Z.ltb_lt. lia.
Qed.

(** The first row a [LIMIT 1] query returns is the first row that matches. *)
Lemma filter_head_find {A} (f : A -> bool) (l : list A) :
  head (List.filter f l) = List.find f l.
Proof.
  induction l as [|x l IH]; simpl; [reflexivity|].
  destruct (f x); [reflexivity | exact IH].
Qed.

Lemma where_sha256_true h row :
  where_ [(col_sha256, h)] row = true <-> sha256 row = h.
Proof.
  unfold where_; simpl. rewrite andb_true_r. apply String.eqb_eq.
Qed.

(** The sha256 values of the table after an upsert of [(a, b)] are the
    old ones and [b], and [b] is among them. *)
Lemma Exec_upsert_sha256 d a b :
  fault d = None ->
  exists l',
    Exec_upsert d a b = (None, {| cert_auth_associations := l'; now := now d; fault := None |})
    /\ existsb (where_ [(col_sha256, b)]) l' = true
    /\ (forall row, In row l' ->
          sha256 row = b \/ exists old, In old (cert_auth_associations d)
                                        /\ sha256 old = sha256 row).
Proof.
  intros Hf. unfold Exec_upsert. rewrite Hf.
  set (l := cert_auth_associations d) in *.
  destruct (existsb (pair a b) l) eqn:Hex.
  - exists (List.map (touch (now d) a b) l). split; [reflexivity|]. split.
    + apply existsb_exists in Hex as (row & Hin & [_ Hb]%pair_true).
      apply existsb_exists. exists (touch (now d) a b row). split.
      * apply in_map. assumption.
      * apply where_sha256_true. rewrite touch_sha256. assumption.
    + intros row (old & <- & Hin)%in_map_iff. right. exists old.
      rewrite touch_sha256. auto.
  - eexists. split; [reflexivity|]. split.
    + rewrite existsb_app. unfold where_ at 2; simpl.
      rewrite String.eqb_refl. apply orb_true_r.
    + intros row [Hin | [<- | []]]%in_app_iff; [right; eauto | left; reflexivity].
Qed.

Section with_types.
Context `{GoTypes} `{!go.Library}.

Lemma queryRowContextRowExists_existsb (s : PgSQLStorage) (c : GoContext) conds :
  queryRowContextRowExists s c conds
  = match fault (db s) with
    | Some e => (false, Some e)
    | None => (existsb (where_ conds) (rows s), None)
    end.
Proof.
  unfold queryRowContextRowExists, QueryRow_count, rows.
  destruct (fault (db s)); [reflexivity|].
  rewrite count_positive. reflexivity.
Qed.

Lemma AssociateCertHash_unfold (s : PgSQLStorage) (r : Request) eid hash :
  Request_EnrollID r = Some eid ->
  AssociateCertHash s r hash
  = Some (let '(err, d) := Exec_upsert (db s) (ID eid) (go.strings_ToLower hash) in
          (err, {| db := d |})).
Proof.
  intros Hr. unfold AssociateCertHash, Request_ID. rewrite Hr. simpl.
  destruct (Exec_upsert _ _ _). reflexivity.
Qed.

(** C7.  AssociateCertHash is idempotent: on a reachable database that
    satisfies the primary key, two calls for the same enrollment id and
    hash (the second at server time [t2]) both succeed and leave exactly
    one row for the pair, stored under the lowercased hash; the second
    call adds no row and changes no other row: it only sets the
    [updated_at] of that row to [t2], and keeps its [created_at];
    IsCertHashAssociated then answers true for the pair. *)
Theorem AssociateCertHash_idempotent
    (s : PgSQLStorage) (r : Request) (eid : EnrollID) (hash : string) (t1 t2 : Z) :
  fault (db s) = None ->
  pkey (rows s) = true ->
  Request_EnrollID r = Some eid ->
  exists s1 s2 c,
    AssociateCertHash (set_now t1 s) r hash = Some (None, s1)
    /\ AssociateCertHash (set_now t2 s1) r hash = Some (None, s2)
    /\ List.filter (pair (ID eid) (go.strings_ToLower hash)) (rows s1)
       = [{| id := ID eid; sha256 := go.strings_ToLower hash;
             created_at := c; updated_at := t1 |}]
    /\ List.filter (pair (ID eid) (go.strings_ToLower hash)) (rows s2)
       = [{| id := ID eid; sha256 := go.strings_ToLower hash;
             created_at := c; updated_at := t2 |}]
    /\ length (rows s2) = length (rows s1)
    /\ List.filter (fun row => negb (pair (ID eid) (go.strings_ToLower hash) row)) (rows s2)
       = List.filter (fun row => negb (pair (ID eid) (go.strings_ToLower hash) row)) (rows s1)
    /\ pkey (rows s2) = true
    /\ IsCertHashAssociated s2 r hash = Some (true, None).
Proof.
  intros Hf Hpk Hr.
  set (a := ID eid). set (b := go.strings_ToLower hash).
  destruct (Exec_upsert_spec (db (set_now t1 s)) a b Hf Hpk)
    as (l1 & E1 & Hpk1 & Hrow1 & _ & _).
  set (d1 := {| cert_auth_associations := l1; now := t1; fault := None |}) in *.
  destruct (Exec_upsert_spec (db (set_now t2 {| db := d1 |})) a b eq_refl Hpk1)
    as (l2 & E2 & Hpk2 & Hrow2 & Hothers & Hlen).
  simpl in Hrow1, Hrow2, Hothers, Hlen.
  exists {| db := d1 |},
         {| db := {| cert_auth_associations := l2; now := t2; fault := None |} |}.
  eexists.
  rewrite !(AssociateCertHash_unfold _ _ eid) by assumption.
  fold a b. rewrite E1. split; [reflexivity|].
  rewrite E2. split; [reflexivity|].
  unfold rows; simpl.
  split; [exact Hrow1|].
  split; [rewrite Hrow2, Hrow1; reflexivity|].
  split.
  { rewrite Hlen.
    replace (existsb (pair a b) l1) with true; [reflexivity|].
    destruct (existsb (pair a b) l1) eqn:E; [reflexivity|].
    apply existsb_false_filter in E. rewrite E in Hrow1. discriminate. }
  split; [exact Hothers|]. split; [exact Hpk2|].
  unfold IsCertHashAssociated, Request_ID. rewrite Hr. simpl.
  unfold queryRowContextRowExists, QueryRow_count. simpl.
  fold a b. fold (pair a b). rewrite Hrow2. reflexivity.
Qed.

(** C8.  HasCertHash, IsCertHashAssociated and AssociateCertHash lowercase
    the hash before they match or store it.  On a reachable database
    HasCertHash answers whether some row has the lowercased hash,
    IsCertHashAssociated whether some row has the enrollment id of the
    request and the lowercased hash, and AssociateCertHash leaves a row
    with that id and the lowercased hash and adds no row of another id or
    hash.  Hence two spellings with the same lowercase form give the same
    results (and the same table), in particular two ASCII strings that
    differ in the case of their letters only.  EnrollmentFromHash matches
    its argument as it is: it returns the id of the first row whose hash
    equals the argument byte for byte, the empty id if there is none; so
    after a hash that differs from its lowercase form (an ASCII string with
    an uppercase letter, for one), and that is not stored in that
    spelling, has been associated, HasCertHash finds it but
    EnrollmentFromHash with the same string returns the empty id and no
    error. *)
Theorem hash_lowercased_except_EnrollmentFromHash (s : PgSQLStorage) (r : Request) :
  (forall (h : string) (eid : EnrollID),
      fault (db s) = None ->
      Request_EnrollID r = Some eid ->
      HasCertHash s r h
      = Some (existsb (fun row => String.eqb (sha256 row) (go.strings_ToLower h)) (rows s),
              None)
      /\ IsCertHashAssociated s r h
         = Some (existsb (fun row => String.eqb (id row) (ID eid)
                                     && String.eqb (sha256 row) (go.strings_ToLower h))
                   (rows s), None)
      /\ exists s',
          AssociateCertHash s r h = Some (None, s')
          /\ (exists row, In row (rows s')
                          /\ id row = ID eid /\ sha256 row = go.strings_ToLower h)
          /\ (forall row, In row (rows s') ->
                (id row = ID eid /\ sha256 row = go.strings_ToLower h)
                \/ exists old, In old (rows s)
                               /\ id old = id row /\ sha256 old = sha256 row))
  /\ (forall h1 h2 : string,
        go.strings_ToLower h1 = go.strings_ToLower h2
        \/ (go.isASCII h1 = true /\ go.isASCII h2 = true
            /\ go.lower_ASCII h1 = go.lower_ASCII h2) ->
        HasCertHash s r h1 = HasCertHash s r h2
        /\ IsCertHashAssociated s r h1 = IsCertHashAssociated s r h2
        /\ AssociateCertHash s r h1 = AssociateCertHash s r h2)
  /\ (forall (c : GoContext) (hash : string),
        fault (db s) = None ->
        EnrollmentFromHash s c hash
        = (match List.find (fun row => String.eqb (sha256 row) hash) (rows s) with
           | Some row => id row
           | None => ""
           end, None))
  /\ (forall (hash : string) (eid : EnrollID),
        fault (db s) = None ->
        Request_EnrollID r = Some eid ->
        go.strings_ToLower hash <> hash
        \/ (go.isASCII hash = true /\ go.lower_ASCII hash <> hash) ->
        (forall row, In row (rows s) -> sha256 row <> hash) ->
        exists s',
          AssociateCertHash s r hash = Some (None, s')
          /\ HasCertHash s' r hash = Some (true, None)
          /\ EnrollmentFromHash s' (Request_Context r) hash = ("", None)).
Proof.
  split; [|split; [|split]].
  - intros h eid Hf Hr.
    unfold HasCertHash, IsCertHashAssociated, Request_ID. rewrite Hr. simpl.
    rewrite !queryRowContextRowExists_existsb, Hf.
    split; [|split].
    + do 2 f_equal. apply existsb_pointwise. intros row.
      unfold where_; simpl. apply andb_true_r.
    + do 2 f_equal. apply existsb_pointwise. intros row.
      unfold where_; simpl. rewrite andb_true_r. reflexivity.
    + rewrite (AssociateCertHash_unfold _ _ eid) by assumption.
      unfold Exec_upsert. rewrite Hf. fold (rows s).
      eexists. split; [reflexivity|]. unfold rows at 1 3; simpl.
      destruct (existsb (pair (ID eid) (go.strings_ToLower h)) (rows s)) eqn:Hex.
      * split.
        -- apply existsb_exists in Hex as (row & Hin & [Hid Hsha]%pair_true).
           exists (touch (now (db s)) (ID eid) (go.strings_ToLower h) row).
           split; [apply in_map; exact Hin|].
           rewrite touch_id, touch_sha256. auto.
        -- intros row (old & <- & Hin)%in_map_iff. right. exists old.
           rewrite touch_id, touch_sha256. auto.
      * split.
        -- eexists. split; [apply in_app_iff; right; left; reflexivity|].
           simpl. auto.
        -- intros row [Hin | [<- | []]]%in_app_iff.
           ++ right. exists row. auto.
           ++ left. simpl. auto.
  - intros h1 h2 Hsame.
    assert (E : go.strings_ToLower h1 = go.strings_ToLower h2).
    { destruct Hsame as [E | (A1 & A2 & E)]; [exact E|].
      rewrite (go.ToLower_ASCII h1 A1), (go.ToLower_ASCII h2 A2). exact E. }
    unfold HasCertHash, IsCertHashAssociated, AssociateCertHash.
    rewrite E. auto.
  - intros c hash Hf.
    unfold EnrollmentFromHash, QueryRow_id_limit1. rewrite Hf. fold (rows s).
    rewrite <- (filter_head_find (fun row => String.eqb (sha256 row) hash)).
    replace (List.filter (where_ [(col_sha256, hash)]) (rows s))
      with (List.filter (fun row => String.eqb (sha256 row) hash) (rows s)).
    + destruct (List.filter _ (rows s)); reflexivity.
    + apply List.filter_ext. intros row. unfold where_; simpl.
      symmetry. apply andb_true_r.
  - intros hash eid Hf Hr Hupper Hnone.
    assert (Hup : go.strings_ToLower hash <> hash).
    { destruct Hupper as [Hup | [A Hup]]; [exact Hup|].
      rewrite (go.ToLower_ASCII hash A). exact Hup. }
    destruct (Exec_upsert_sha256 (db s) (ID eid) (go.strings_ToLower hash) Hf)
      as (l' & E & Hhas & Hsha).
    exists {| db := {| cert_auth_associations := l'; now := now (db s); fault := None |} |}.
    rewrite (AssociateCertHash_unfold _ _ eid) by assumption. rewrite E.
    split; [reflexivity|]. split.
    + unfold HasCertHash, queryRowContextRowExists, QueryRow_count; simpl.
      do 2 f_equal.
      destruct (List.filter _ l') eqn:Efil; [|reflexivity].
      apply filter_nil_existsb in Efil. congruence.
    + unfold EnrollmentFromHash, QueryRow_id_limit1; simpl.
      destruct (List.filter _ l') as [|row rest] eqn:Efil; [reflexivity|].
      exfalso.
      assert (Hin : In row (List.filter (where_ [(col_sha256, hash)]) l'))
        by (rewrite Efil; left; reflexivity).
      apply filter_In in Hin as [Hin Hrow%where_sha256_true].
      destruct (Hsha row Hin) as [Hb | (old & Hold & Hsame)].
      * apply Hup. congruence.
      * apply (Hnone old Hold). congruence.
Qed.

(** C9.  EnrollmentFromHash encodes absence as the empty id with a nil
    error: that is its result whenever the query runs and no row has the
    hash.  An error comes back only when the query itself failed, with
    an error that is not [sql.ErrNoRows]; the id is then empty. *)
Theorem EnrollmentFromHash_absent_is_not_an_error
    (s : PgSQLStorage) (c : GoContext) (hash : string) :
  (fault (db s) = None ->
   (forall row, In row (rows s) -> sha256 row <> hash) ->
   EnrollmentFromHash s c hash = ("", None))
  /\ (forall (rid : string) (e : error),
        EnrollmentFromHash s c hash = (rid, Some e) ->
        fault (db s) = Some e /\ errors_Is_ErrNoRows e = false /\ rid = "").
Proof.
  unfold EnrollmentFromHash, QueryRow_id_limit1, rows. split.
  - intros -> Hnone.
    destruct (List.filter _ _) as [|row rest] eqn:Efil; [reflexivity|].
    exfalso.
    assert (Hin : In row (List.filter (where_ [(col_sha256, hash)])
                            (cert_auth_associations (db s))))
      by (rewrite Efil; left; reflexivity).
    apply filter_In in Hin as [Hin Hrow%where_sha256_true].
    exact (Hnone row Hin Hrow).
  - intros rid e. destruct (fault (db s)) as [e'|].
    + destruct (errors_Is_ErrNoRows e') eqn:Eis; [discriminate|].
      intros [= <- <-]. auto.
    + destruct (List.filter _ _); simpl; discriminate.
Qed.

End with_types.

End pgsql_properties.

(** ** Running programs *)
Section effects_properties.
Import effects.
Context {L : Type} {E : Type -> Type} {W : Type} (h : Impl E W).

Lemma run_bind {A B} (p : Prog L E A) (f : A -> Prog L E B) (w : W) :
  run h (p ≫= f) w
  = let '(a, w1, t1) := run h p w in
    let '(b, w2, t2) := run h (f a) w1 in
    (b, w2, t1 ++ t2).
Proof.
  revert w. induction p as [a | X e k IH | l k IH]; intros w.
  - change (run h (f a) w = let '(b, w2, t2) := run h (f a) w in (b, w2, [] ++ t2)).
    destruct (run h (f a) w) as [[b w2] t2]. reflexivity.
  - change (Vis e k ≫= f) with (Vis e (fun x => k x ≫= f)).
    simpl. destruct (h X e w) as [x w1]. rewrite IH.
    destruct (run h (k x) w1) as [[a w2] t1].
    destruct (run h (f a) w2) as [[b w3] t2]. reflexivity.
  - change (Say l k ≫= f) with (Say l (k ≫= f)).
    simpl. rewrite IH.
    destruct (run h k w) as [[a w1] t1].
    destruct (run h (f a) w1) as [[b w2] t2]. reflexivity.
Qed.

#[local] Arguments calls : simpl never.

Lemma calls_app sel (t1 t2 : list (Event L E)) :
  calls sel (t1 ++ t2) = calls sel t1 ++ calls sel t2.
Proof. apply List.filter_app. Qed.

End effects_properties.

(** ** The service *)
Section nanomdm_properties.
Import mdm effects nanomdm.
Context `{GoTypes} `{!Externals}.
Context {W : Type} (h : Impl Call W).

#[local] Arguments calls : simpl never.

Lemma calls_overwriting sel (s : Service) (r : Request) :
  calls sel (overwriting s r) = [].
Proof.
  unfold overwriting. destruct (Request_EnrollID r) as [eid|]; [|reflexivity].
  destruct (negb _); reflexivity.
Qed.

(** [setupRequest] makes no call: it installs the enrollment id, logs at
    most the debug line, and fails exactly when validation does. *)
Lemma run_setupRequest (s : Service) (r : Request) (e : Enrollment) (w : W) :
  run h (setupRequest s r e) w
  = (match Validate (normalizer s e) with
     | Some err => (installed s r e, installed s r e, Some err)
     | None => (installed s r e, prepared s r e, None)
     end, w, overwriting s r).
Proof.
  unfold setupRequest, overwriting. rewrite run_bind.
  replace (Request_EnrollID (set_EnrollID r (normalizer s e)))
    with (normalizer s e) by reflexivity.
  destruct (Request_EnrollID r) as [eid|];
    [destruct (negb (String.eqb (ID eid) ""))|];
    simpl; destruct (Validate (normalizer s e)); reflexivity.
Qed.

(** Names the answer of the implementation to a call in the goal. *)
Ltac destruct_answer :=
  match goal with
  | |- context [h ?X ?c ?w] => destruct (h X c w) as [? ?]
  end.

(** Reads the calls off a trace that starts with [overwriting]. *)
Ltac trace_calls :=
  rewrite ?calls_app, ?calls_overwriting; unfold calls; simpl.

(** C2.  An Authenticate message that passes normalization makes the
    storage calls StoreAuthenticate, ClearQueue, Disable, in this order,
    each with the prepared request; the first error ends the sequence and
    is the result, otherwise the result is that of Disable.  A CheckOut
    message that passes normalization makes the single storage call
    Disable.  Neither calls a handler. *)
Theorem Authenticate_and_CheckOut_storage_calls
    (s : Service) (r : Request) (w : W) :
  (forall message : mdm.Authenticate,
      Validate (normalizer s (Authenticate_Enrollment message)) = None ->
      let r' := prepared s r (Authenticate_Enrollment message) in
      let '(res, w', t) := run h (Authenticate s r message) w in
      let '(e1, w1) := h _ (StoreAuthenticate (store s) r' message) w in
      let '(e2, w2) := h _ (ClearQueue (store s) r') w1 in
      let '(e3, w3) := h _ (Disable (store s) r') w2 in
      calls is_handler t = []
      /\ match e1, e2 with
         | Some err, _ =>
             calls is_store t = [Ev (StoreAuthenticate (store s) r' message) (Some err)]
             /\ res.2 = Some err /\ w' = w1
         | None, Some err =>
             calls is_store t = [Ev (StoreAuthenticate (store s) r' message) None;
                                 Ev (ClearQueue (store s) r') (Some err)]
             /\ res.2 = Some err /\ w' = w2
         | None, None =>
             calls is_store t = [Ev (StoreAuthenticate (store s) r' message) None;
                                 Ev (ClearQueue (store s) r') None;
                                 Ev (Disable (store s) r') e3]
             /\ res.2 = e3 /\ w' = w3
         end)
  /\ (forall message : mdm.CheckOut,
        Validate (normalizer s (CheckOut_Enrollment message)) = None ->
        let r' := prepared s r (CheckOut_Enrollment message) in
        let '(res, w', t) := run h (CheckOut s r message) w in
        let '(e1, w1) := h _ (Disable (store s) r') w in
        calls is_handler t = []
        /\ calls is_store t = [Ev (Disable (store s) r') e1]
        /\ res.2 = e1 /\ w' = w1).
Proof.
  split; intros message Hv.
  - unfold Authenticate. rewrite run_bind, run_setupRequest, Hv. simpl.
    destruct (h _ (StoreAuthenticate _ _ _) w) as [[e1|] w1]; simpl.
    { destruct (h _ (ClearQueue _ _) w1) as [e2 w2].
      destruct (h _ (Disable _ _) w2) as [e3 w3].
      trace_calls. auto. }
    destruct (h _ (ClearQueue _ _) w1) as [[e2|] w2]; simpl.
    { destruct (h _ (Disable _ _) w2) as [e3 w3].
      trace_calls. auto. }
    destruct (h _ (Disable _ _) w2) as [e3 w3]; simpl.
    trace_calls. auto.
  - unfold CheckOut. rewrite run_bind, run_setupRequest, Hv. simpl.
    destruct (h _ (Disable _ _) w) as [e1 w1]; simpl.
    trace_calls. auto.
Qed.

(** Splits on the answers of the implementation that the goal mentions. *)
Ltac answer :=
  repeat match goal with
    | |- context [h ?X ?c ?w] => destruct (h X c w) as [? ?]; simpl
    | |- context [match ?o with Some _ => _ | None => _ end] => destruct o; simpl
    | |- context [let '(_, _) := ?p in _] => is_var p; destruct p; simpl
    end.

(** C4.  Every check-in method and CommandAndReportResults starts with
    [setupRequest]: the normalizer runs and its enrollment id is installed
    on the request; if validation fails the method returns that error,
    makes no storage and no handler call and leaves the state unchanged;
    otherwise every later call carries the prepared request. *)
Theorem methods_start_with_setupRequest (s : Service) (r : Request) (w : W) :
  (forall m, starts_with_setupRequest h w s r (Authenticate_Enrollment m)
               (Authenticate s r m) Some)
  /\ (forall m, starts_with_setupRequest h w s r (TokenUpdate_Enrollment m)
                 (TokenUpdate s r m) Some)
  /\ (forall m, starts_with_setupRequest h w s r (CheckOut_Enrollment m)
                 (CheckOut s r m) Some)
  /\ (forall m, starts_with_setupRequest h w s r (UserAuthenticate_Enrollment m)
                 (UserAuthenticate s r m) (fun err => ([], Some err)))
  /\ (forall m, starts_with_setupRequest h w s r (SetBootstrapToken_Enrollment m)
                 (SetBootstrapToken s r m) Some)
  /\ (forall m, starts_with_setupRequest h w s r (GetBootstrapToken_Enrollment m)
                 (GetBootstrapToken s r m) (fun err => (None, Some err)))
  /\ (forall m, starts_with_setupRequest h w s r (DeclarativeManagement_Enrollment m)
                 (DeclarativeManagement s r m) (fun err => ([], Some err)))
  /\ (forall m, starts_with_setupRequest h w s r (GetToken_Enrollment m)
                 (GetToken s r m) (fun err => (None, Some err)))
  /\ (forall m, starts_with_setupRequest h w s r (CommandResults_Enrollment m)
                 (CommandAndReportResults s r m) (fun err => (None, Some err))).
Proof.
  repeat split; intros m; unfold starts_with_setupRequest;
    [ unfold Authenticate | unfold TokenUpdate | unfold CheckOut
    | unfold UserAuthenticate | unfold SetBootstrapToken | unfold GetBootstrapToken
    | unfold DeclarativeManagement | unfold GetToken | unfold CommandAndReportResults ];
    rewrite run_bind, run_setupRequest;
    (destruct (Validate (normalizer s _)) as [err|]; simpl;
     [ (* validation fails: nothing but the debug line *)
       rewrite ?app_nil_r, ?calls_overwriting; auto
     | (* validation passes: every call carries the prepared request *)
       answer; (split; [reflexivity|]); (split; [reflexivity|]);
       (apply Forall_app; split;
        [ unfold overwriting; destruct (Request_EnrollID r) as [eid|];
          [destruct (negb _)|]; repeat constructor
        | repeat constructor ]) ]).
Qed.

(** C5.  For a UserAuthenticate, DeclarativeManagement or GetToken
    message that passes normalization: without the handler the method
    fails with the error that reports the missing handler, makes no call
    at all (so no storage write) and leaves the state unchanged; with the
    handler it makes exactly one call, to the handler with the prepared
    request and the message, and returns the handler's results as they
    are. *)
Theorem optional_handlers (s : Service) (r : Request) (w : W) :
  (forall message : mdm.UserAuthenticate,
      Validate (normalizer s (UserAuthenticate_Enrollment message)) = None ->
      let r' := prepared s r (UserAuthenticate_Enrollment message) in
      let '(res, w', t) := run h (UserAuthenticate s r message) w in
      match ua s with
      | None =>
          res.2 = ([], Some (errors_New "no UserAuthenticate handler"))
          /\ w' = w /\ calls any_call t = []
      | Some hd =>
          let '(answer, w1) := h _ (ua_UserAuthenticate hd r' message) w in
          res.2 = answer /\ w' = w1
          /\ calls any_call t = [Ev (ua_UserAuthenticate hd r' message) answer]
      end)
  /\ (forall message : mdm.DeclarativeManagement,
        Validate (normalizer s (DeclarativeManagement_Enrollment message)) = None ->
        let r' := prepared s r (DeclarativeManagement_Enrollment message) in
        let '(res, w', t) := run h (DeclarativeManagement s r message) w in
        match dm s with
        | None =>
            res.2 = ([], Some (errors_New "no Declarative Management handler"))
            /\ w' = w /\ calls any_call t = []
        | Some hd =>
            let '(answer, w1) := h _ (dm_DeclarativeManagement hd r' message) w in
            res.2 = answer /\ w' = w1
            /\ calls any_call t = [Ev (dm_DeclarativeManagement hd r' message) answer]
        end)
  /\ (forall message : mdm.GetToken,
        Validate (normalizer s (GetToken_Enrollment message)) = None ->
        let r' := prepared s r (GetToken_Enrollment message) in
        let '(res, w', t) := run h (GetToken s r message) w in
        match gt s with
        | None =>
            res.2 = (None, Some (errors_New "no GetToken handler"))
            /\ w' = w /\ calls any_call t = []
        | Some hd =>
            let '(answer, w1) := h _ (gt_GetToken hd r' message) w in
            res.2 = answer /\ w' = w1
            /\ calls any_call t = [Ev (gt_GetToken hd r' message) answer]
        end).
Proof.
  repeat split; intros message Hv.
  - unfold UserAuthenticate. rewrite run_bind, run_setupRequest, Hv.
    unfold bytes. simpl.
    destruct (ua s) as [hd|]; simpl.
    + destruct_answer; simpl.
      trace_calls. auto.
    + trace_calls. auto.
  - unfold DeclarativeManagement. rewrite run_bind, run_setupRequest, Hv.
    unfold bytes. simpl.
    destruct (dm s) as [hd|]; simpl.
    + destruct_answer; simpl.
      trace_calls. auto.
    + trace_calls. auto.
  - unfold GetToken. rewrite run_bind, run_setupRequest, Hv. simpl.
    destruct (gt s) as [hd|]; simpl.
    + destruct_answer; simpl.
      trace_calls. auto.
    + trace_calls. auto.
Qed.

Lemma skipNotNow_flags_app (t1 t2 : list (Event LogLine Call)) :
  skipNotNow_flags (t1 ++ t2) = skipNotNow_flags t1 ++ skipNotNow_flags t2.
Proof.
  induction t1 as [|ev t1 IH]; simpl; [reflexivity|].
  destruct ev as [X c x | l]; [destruct c|]; simpl; rewrite ?IH; reflexivity.
Qed.

Lemma skipNotNow_flags_overwriting (s : Service) (r : Request) :
  skipNotNow_flags (overwriting s r) = [].
Proof.
  unfold overwriting. destruct (Request_EnrollID r) as [eid|]; [|reflexivity].
  destruct (negb _); reflexivity.
Qed.

(** C1, as the code has it.  A CommandAndReportResults request that passes
    normalization first calls StoreCommandReport; if that fails no command
    is retrieved and the wrapped error is returned.  Otherwise the service
    calls RetrieveNextCommand exactly once, and its skipNotNow argument is
    [true] when and only when the reported status is "NotNow"; the result
    is the retrieved command, or the wrapped error of the retrieval. *)
Theorem CommandAndReportResults_skipNotNow
    (s : Service) (r : Request) (results : CommandResults) (w : W) :
  Validate (normalizer s (CommandResults_Enrollment results)) = None ->
  let r' := prepared s r (CommandResults_Enrollment results) in
  let skip := String.eqb (Status results) "NotNow" in
  let '(res, w', t) := run h (CommandAndReportResults s r results) w in
  let '(e1, w1) := h _ (StoreCommandReport (store s) r' results) w in
  let '(next, w2) := h _ (RetrieveNextCommand (store s) r' skip) w1 in
  (skip = true <-> Status results = "NotNow")
  /\ match e1 with
     | Some err =>
         calls any_call t = [Ev (StoreCommandReport (store s) r' results) (Some err)]
         /\ skipNotNow_flags t = []
         /\ res.2 = (None, Some (fmt_Errorf "storing command report: %w" (Some err)))
         /\ w' = w1
     | None =>
         calls any_call t = [Ev (StoreCommandReport (store s) r' results) None;
                             Ev (RetrieveNextCommand (store s) r' skip) next]
         /\ skipNotNow_flags t = [skip]
         /\ res.2 = match next with
                    | (_, Some err) =>
                        (None, Some (fmt_Errorf "retrieving next command: %w" (Some err)))
                    | (cmd, None) => (cmd, None)
                    end
         /\ w' = w2
     end.
Proof.
  intros Hv. unfold CommandAndReportResults.
  rewrite run_bind, run_setupRequest, Hv. simpl.
  destruct (h _ (StoreCommandReport _ _ _) w) as [[e1|] w1]; simpl.
  { destruct (h _ (RetrieveNextCommand _ _ _) w1) as [next w2].
    rewrite skipNotNow_flags_app, skipNotNow_flags_overwriting. trace_calls.
    split; [apply String.eqb_eq | auto]. }
  destruct (h _ (RetrieveNextCommand _ _ _) w1) as [[cmd [e2|]] w2]; simpl;
    [|destruct cmd as [c|]; simpl];
    rewrite skipNotNow_flags_app, skipNotNow_flags_overwriting; trace_calls;
    (split; [apply String.eqb_eq | auto]).
Qed.

End nanomdm_properties.

Section normalize_properties.
Import mdm nanomdm.
Context `{GoTypes} `{!Externals}.

(** C3.  For a resolvable enrollment block the normalizer produces an
    EnrollID of the resolved type: on a device channel the id is the
    device-channel id and the parent id is empty; on a user channel the id
    is the device-channel id, a colon and the user-channel id, and the
    parent id is the device-channel id.  The id is a function of the
    resolved block alone, so equal inputs yield equal ids. *)
Theorem normalize_resolved (e : Enrollment) (r : ResolvedEnrollment) :
  Resolved e = Some r ->
  (exists eid,
      normalize e = Some eid
      /\ Type_ eid = Resolved_Type r
      /\ (IsUserChannel r = false ->
          ID eid = DeviceChannelID r /\ ParentID eid = "")
      /\ (IsUserChannel r = true ->
          ID eid = DeviceChannelID r +:+ ":" +:+ UserChannelID r
          /\ ParentID eid = DeviceChannelID r))
  /\ (forall e1 e2, Resolved e1 = Resolved e2 -> normalize e1 = normalize e2)
  /\ (forall e1 e2, e1 = e2 -> normalize e1 = normalize e2).
Proof.
  intros Hr. split; [|split].
  - unfold normalize. rewrite Hr. simpl.
    destruct (IsUserChannel r); eexists; (split; [reflexivity|]); simpl;
      repeat split; intros; try discriminate; reflexivity.
  - intros e1 e2 E. unfold normalize. rewrite E. reflexivity.
  - intros e1 e2 ->. reflexivity.
Qed.

End normalize_properties.

(** ** The HTTP adapter *)
Section http_properties.
Import mdm effects http.
Context `{GoTypes} `{!Externals} `{!go.Library}.

Lemma url_Query_lookup_from (pairs : list (string * string))
    (m : gmap string (list string)) (k : string) :
  fold_left (fun m kv => <[kv.1 := default [] (m !! kv.1) ++ [kv.2]]> m) pairs m !! k
  = match go.values_of k pairs with
    | [] => m !! k
    | vs => Some (default [] (m !! k) ++ vs)
    end.
Proof.
  revert m. induction pairs as [|[k0 v0] pairs IH]; intros m; [reflexivity|].
  simpl fold_left. rewrite IH. unfold go.values_of; simpl.
  destruct (String.eqb k0 k) eqn:E; simpl.
  - apply String.eqb_eq in E as ->. rewrite lookup_insert_eq; simpl.
    destruct (List.map snd _); [reflexivity|].
    rewrite <- app_assoc. reflexivity.
  - apply String.eqb_neq in E. rewrite lookup_insert_ne by assumption.
    reflexivity.
Qed.

(** [Query] groups the values by key, in order; no key has an empty
    slice. *)
Lemma url_Query_lookup (pairs : list (string * string)) (k : string) :
  go.url_Query pairs !! k
  = match go.values_of k pairs with [] => None | vs => Some vs end.
Proof.
  unfold go.url_Query. rewrite url_Query_lookup_from, lookup_empty.
  destruct (go.values_of k pairs); reflexivity.
Qed.

Lemma url_Query_nonempty_values (pairs : list (string * string)) k vs :
  go.url_Query pairs !! k = Some vs -> vs <> [].
Proof.
  rewrite url_Query_lookup. destruct (go.values_of k pairs); congruence.
Qed.

Lemma url_Query_size (pairs : list (string * string)) :
  (0 <? size (go.url_Query pairs))%nat = negb (bool_decide (pairs = [])).
Proof.
  destruct pairs as [|[k v] pairs]; [reflexivity|].
  rewrite bool_decide_eq_false_2 by discriminate. simpl negb.
  apply Nat.ltb_lt.
  assert (size (go.url_Query ((k, v) :: pairs)) <> 0%nat); [|lia].
  apply map_size_non_empty_iff. intros Hempty.
  pose proof (url_Query_lookup ((k, v) :: pairs) k) as Hk.
  rewrite Hempty, lookup_empty in Hk.
  unfold go.values_of in Hk; simpl in Hk. rewrite String.eqb_refl in Hk.
  discriminate.
Qed.

(** The loop of [RequestFromHTTP] over a map without empty slices keeps
    the first value of every key. *)
Lemma first_values (q : gmap string (list string)) :
  (forall k vs, q !! k = Some vs -> vs <> []) ->
  map_fold
    (fun k v (acc : option (gmap string string)) =>
       p ← acc; v0 ← head v; Some (<[k := v0]> p))
    (Some ∅) q
  = Some (omap head q).
Proof.
  apply (map_fold_weak_ind
           (fun acc m => (forall k vs, m !! k = Some vs -> vs <> []) ->
                         acc = Some (omap head m))).
  - intros _. rewrite omap_empty. reflexivity.
  - intros k vs m acc Hfresh IH Hne.
    rewrite IH.
    + destruct vs as [|v0 vs].
      * exfalso. apply (Hne k []); [apply lookup_insert_eq | reflexivity].
      * simpl. rewrite (omap_insert_Some head m k (v0 :: vs) v0) by reflexivity.
        reflexivity.
    + intros k' vs' Hk'. apply (Hne k' vs').
      rewrite lookup_insert_ne; [assumption|]. intros ->. congruence.
Qed.

(** C10.  RequestFromHTTP never fails; the MDM request has the context and
    the certificate of the HTTP request and no enrollment id.  Without
    query parameters the request is returned as constructed and its Params
    stay nil; otherwise Params maps every parameter name to its first value
    in the URL, and to nothing else. *)
Theorem RequestFromHTTP_Params (r : HTTPRequest) :
  exists m,
    RequestFromHTTP r = Some m
    /\ ctx m = http_Context r
    /\ Request_Certificate m = GetCert (http_Context r)
    /\ Request_EnrollID m = None
    /\ match URL_RawQuery r with
       | [] =>
           m = NewRequestWithContext (http_Context r) (GetCert (http_Context r))
           /\ Params m = None
       | _ :: _ =>
           exists p, Params m = Some p
                     /\ forall k, p !! k = head (go.values_of k (URL_RawQuery r))
       end.
Proof.
  unfold RequestFromHTTP. rewrite url_Query_size.
  destruct (URL_RawQuery r) as [|kv pairs] eqn:Epairs.
  - eexists. repeat split; reflexivity.
  - rewrite bool_decide_eq_false_2 by discriminate. simpl negb. cbv iota.
    rewrite first_values by apply url_Query_nonempty_values. simpl.
    eexists. repeat split. eexists. split; [reflexivity|].
    intros k. rewrite lookup_omap, url_Query_lookup.
    destruct (go.values_of k (kv :: pairs)); reflexivity.
Qed.


(** [http.Error] on a response whose header is not written yet: with a code
    of three digits it fixes the status and writes the text and a newline,
    with any other code it panics. *)
Lemma http_Error_unwritten (w : go.ResponseWriter) (text : string) (code : Z) :
  go.Code w = None ->
  if go.valid_code code
  then exists w',
      go.http_Error w text code = Some w'
      /\ go.Code w' = Some code
      /\ go.Body w' = go.Body w ++ list_byte_of_string text ++ [Byte.x0a]
  else go.http_Error w text code = None.
Proof.
  intros Hw. unfold go.http_Error, go.WriteHeader; simpl. rewrite Hw.
  destruct (go.valid_code code); simpl; [|reflexivity].
  eexists. split; [reflexivity|].
  unfold go.Fprintln, go.Write; simpl. auto.
Qed.

Section with_implementation.
Context {W : Type} (hh : Impl Call W).

(** The error branch logs one line and answers through [http.Error]. *)
Lemma run_report_error (logger : Logger) (msg : string) (w : go.ResponseWriter)
    (r : HTTPRequest) (err : error) (w0 : W) :
  let status := match errors_As_HTTPStatusError err with
                | Some (st, _) => st
                | None => 500
                end in
  let cause := match errors_As_HTTPStatusError err with
               | Some (_, c) => fmt_Errorf "HTTP error: %w" c
               | None => err
               end in
  let content := match errors_As_ParseError cause with
                 | Some (_, c) => [LStr "content"; LStr (string_of_bytes c)]
                 | None => []
                 end in
  let logged_err := match errors_As_ParseError cause with
                    | Some (c, _) => fmt_Errorf "parse error: %w" c
                    | None => cause
                    end in
  run hh (report_error logger msg w r err) w0
  = (go.http_Error w (go.http_StatusText status) status, w0,
     [Logged {| log_ctx := http_Context r; log_logger := logger;
                log_keyvals := [LStr "msg"; LStr msg] ++ content
                               ++ [LStr "http_status"; LInt status;
                                   LStr "err"; LErr (Some logged_err)] |}]).
Proof.
  unfold report_error.
  destruct (errors_As_HTTPStatusError err) as [[st c]|];
    [destruct (errors_As_ParseError (fmt_Errorf "HTTP error: %w" c)) as [[c' b]|]
    |destruct (errors_As_ParseError err) as [[c' b]|]];
    reflexivity.
Qed.


End with_implementation.

End http_properties.

(** * The properties on concrete inputs *)
Section on_concrete_inputs.
Import mdm effects examples.
#[local] Existing Instance examples.types.
#[local] Existing Instance examples.externals.
#[local] Existing Instance examples.library.

(** ** Cert-auth storage *)

Example associate_twice :
  (s1 ← pgsql.AssociateCertHash (pgsql.set_now 10 empty_storage) request_AAA "AB12";
   s2 ← pgsql.AssociateCertHash (pgsql.set_now 20 s1.2) request_AAA "ab12";
   Some (pgsql.rows s2.2))
  = Some [{| pgsql.id := "AAA"; pgsql.sha256 := "ab12";
             pgsql.created_at := 10; pgsql.updated_at := 20 |}].
Proof. reflexivity. Qed.

Lemma AssociateCertHash_idempotent_witness :
  (pgsql.fault (pgsql.db empty_storage) = None
   /\ pgsql.pkey (pgsql.rows empty_storage) = true
   /\ Request_EnrollID request_AAA = Some {| Type_ := Device; ID := "AAA"; ParentID := "" |})
  /\ exists s1 s2 c,
      pgsql.AssociateCertHash (pgsql.set_now 10 empty_storage) request_AAA "AB12"
      = Some (None, s1)
      /\ pgsql.AssociateCertHash (pgsql.set_now 20 s1) request_AAA "AB12" = Some (None, s2)
      /\ List.filter (pgsql.pair "AAA" (go.strings_ToLower "AB12")) (pgsql.rows s1)
         = [{| pgsql.id := "AAA"; pgsql.sha256 := go.strings_ToLower "AB12";
               pgsql.created_at := c; pgsql.updated_at := 10 |}]
      /\ List.filter (pgsql.pair "AAA" (go.strings_ToLower "AB12")) (pgsql.rows s2)
         = [{| pgsql.id := "AAA"; pgsql.sha256 := go.strings_ToLower "AB12";
               pgsql.created_at := c; pgsql.updated_at := 20 |}]
      /\ length (pgsql.rows s2) = length (pgsql.rows s1)
      /\ List.filter (fun row => negb (pgsql.pair "AAA" (go.strings_ToLower "AB12") row))
           (pgsql.rows s2)
         = List.filter (fun row => negb (pgsql.pair "AAA" (go.strings_ToLower "AB12") row))
             (pgsql.rows s1)
      /\ pgsql.pkey (pgsql.rows s2) = true
      /\ pgsql.IsCertHashAssociated s2 request_AAA "AB12" = Some (true, None).
Proof.
  split; [repeat split|].
  apply (AssociateCertHash_idempotent empty_storage request_AAA
           {| Type_ := Device; ID := "AAA"; ParentID := "" |} "AB12" 10 20);
    reflexivity.
Defined.

Example uppercase_hash_is_lost :
  (s1 ← pgsql.AssociateCertHash empty_storage request_AAA "AB12";
   Some (pgsql.HasCertHash s1.2 request_AAA "AB12",
         pgsql.EnrollmentFromHash s1.2 tt "AB12",
         pgsql.EnrollmentFromHash s1.2 tt "ab12"))
  = Some (Some (true, None), ("", None), ("AAA", None)).
Proof. reflexivity. Qed.

Lemma hash_lowercased_except_EnrollmentFromHash_witness :
  (pgsql.fault (pgsql.db empty_storage) = None
   /\ Request_EnrollID request_AAA = Some {| Type_ := Device; ID := "AAA"; ParentID := "" |}
   /\ (go.isASCII "AB12" = true /\ go.isASCII "aB12" = true
       /\ go.lower_ASCII "AB12" = go.lower_ASCII "aB12")
   /\ go.lower_ASCII "AB12" <> "AB12"
   /\ (forall row, In row (pgsql.rows empty_storage) -> pgsql.sha256 row <> "AB12"))
  /\ (pgsql.HasCertHash empty_storage request_AAA "AB12" = Some (false, None)
      /\ pgsql.IsCertHashAssociated empty_storage request_AAA "AB12" = Some (false, None)
      /\ exists s',
          pgsql.AssociateCertHash empty_storage request_AAA "AB12" = Some (None, s')
          /\ (exists row, In row (pgsql.rows s')
                          /\ pgsql.id row = "AAA" /\ pgsql.sha256 row = "ab12")
          /\ (forall row, In row (pgsql.rows s') ->
                (pgsql.id row = "AAA" /\ pgsql.sha256 row = "ab12")
                \/ exists old, In old (pgsql.rows empty_storage)
                               /\ pgsql.id old = pgsql.id row
                               /\ pgsql.sha256 old = pgsql.sha256 row))
  /\ (pgsql.HasCertHash empty_storage request_AAA "AB12"
      = pgsql.HasCertHash empty_storage request_AAA "aB12"
      /\ pgsql.IsCertHashAssociated empty_storage request_AAA "AB12"
         = pgsql.IsCertHashAssociated empty_storage request_AAA "aB12"
      /\ pgsql.AssociateCertHash empty_storage request_AAA "AB12"
         = pgsql.AssociateCertHash empty_storage request_AAA "aB12")
  /\ pgsql.EnrollmentFromHash empty_storage (Request_Context request_AAA) "AB12"
     = ("", None)
  /\ exists s',
      pgsql.AssociateCertHash empty_storage request_AAA "AB12" = Some (None, s')
      /\ pgsql.HasCertHash s' request_AAA "AB12" = Some (true, None)
      /\ pgsql.EnrollmentFromHash s' (Request_Context request_AAA) "AB12" = ("", None).
Proof.
  assert (Hup : go.lower_ASCII "AB12" <> "AB12") by discriminate.
  assert (Hrows : forall row, In row (pgsql.rows empty_storage)
                              -> pgsql.sha256 row <> "AB12") by (intros row []).
  split; [repeat split; assumption|].
  destruct (hash_lowercased_except_EnrollmentFromHash empty_storage request_AAA)
    as (Hmatch & Hsame & Hfind & Hlost).
  split; [|split; [|split]].
  - exact (Hmatch "AB12" {| Type_ := Device; ID := "AAA"; ParentID := "" |}
             eq_refl eq_refl).
  - apply Hsame. right. repeat split.
  - exact (Hfind (Request_Context request_AAA) "AB12" eq_refl).
  - apply (Hlost "AB12" {| Type_ := Device; ID := "AAA"; ParentID := "" |});
      [reflexivity | reflexivity | right; split; [reflexivity | exact Hup] | exact Hrows].
Defined.

Example unreachable_database :
  pgsql.EnrollmentFromHash unreachable_storage tt "ab12"
  = ("", Some (errors_New "connection refused")).
Proof. reflexivity. Qed.

Lemma EnrollmentFromHash_absent_is_not_an_error_witness :
  (pgsql.fault (pgsql.db empty_storage) = None
   /\ (forall row, In row (pgsql.rows empty_storage) -> pgsql.sha256 row <> "ab12")
   /\ pgsql.EnrollmentFromHash unreachable_storage tt "ab12"
      = ("", Some (errors_New "connection refused")))
  /\ pgsql.EnrollmentFromHash empty_storage tt "ab12" = ("", None)
  /\ (pgsql.fault (pgsql.db unreachable_storage) = Some (errors_New "connection refused")
      /\ errors_Is_ErrNoRows (errors_New "connection refused") = false
      /\ "" = "").
Proof.
  assert (Hrows : forall row, In row (pgsql.rows empty_storage)
                              -> pgsql.sha256 row <> "ab12") by (intros row []).
  split; [split; [reflexivity | split; [exact Hrows | reflexivity]]|].
  split.
  - apply (proj1 (EnrollmentFromHash_absent_is_not_an_error
                    empty_storage (tt : @GoContext types) "ab12"));
      [reflexivity | exact Hrows].
  - apply (proj2 (EnrollmentFromHash_absent_is_not_an_error
                    unreachable_storage (tt : @GoContext types) "ab12")).
    reflexivity.
Defined.

(** ** The service *)

Example normalize_device :
  nanomdm.normalize device_AAA = Some {| Type_ := Device; ID := "AAA"; ParentID := "" |}.
Proof. reflexivity. Qed.

Example normalize_user :
  nanomdm.normalize user_AAA_BBB
  = Some {| Type_ := User; ID := "AAA:BBB"; ParentID := "AAA" |}.
Proof. reflexivity. Qed.

Example normalize_empty_block : nanomdm.normalize empty_block = None.
Proof. reflexivity. Qed.

Lemma normalize_resolved_witness :
  Resolved user_AAA_BBB
  = Some {| Resolved_Type := User; DeviceChannelID := "AAA";
            UserChannelID := "BBB"; IsUserChannel := true |}
  /\ exists eid,
      nanomdm.normalize user_AAA_BBB = Some eid
      /\ Type_ eid = User
      /\ (true = false -> ID eid = "AAA" /\ ParentID eid = "")
      /\ (true = true -> ID eid = "AAA" +:+ ":" +:+ "BBB" /\ ParentID eid = "AAA").
Proof.
  split; [reflexivity|].
  apply (proj1 (@normalize_resolved types externals user_AAA_BBB
                  {| Resolved_Type := User; DeviceChannelID := "AAA";
                     UserChannelID := "BBB"; IsUserChannel := true |} eq_refl)).
Defined.

Lemma Authenticate_and_CheckOut_storage_calls_witness :
  (Validate (nanomdm.normalizer service (Authenticate_Enrollment authenticate_AAA)) = None
   /\ Validate (nanomdm.normalizer service (CheckOut_Enrollment checkout_AAA)) = None)
  /\ calls nanomdm.is_store
       (run counting (nanomdm.Authenticate service request authenticate_AAA) 0%nat).2
     = [Ev (nanomdm.StoreAuthenticate tt (nanomdm.prepared service request device_AAA)
              authenticate_AAA) None;
        Ev (nanomdm.ClearQueue tt (nanomdm.prepared service request device_AAA)) None;
        Ev (nanomdm.Disable tt (nanomdm.prepared service request device_AAA)) None]
  /\ calls nanomdm.is_store
       (run counting (nanomdm.CheckOut service request checkout_AAA) 0%nat).2
     = [Ev (nanomdm.Disable tt (nanomdm.prepared service request device_AAA)) None].
Proof.
  split; [split; reflexivity|].
  destruct (@Authenticate_and_CheckOut_storage_calls types externals nat counting
              service request 0%nat)
    as [HA HC].
  specialize (HA authenticate_AAA eq_refl).
  specialize (HC checkout_AAA eq_refl).
  split.
  - exact (proj1 (proj2 HA)).
  - exact (proj1 (proj2 HC)).
Defined.

(** A failing StoreAuthenticate ends the sequence. *)
Example Authenticate_stops_at_first_error :
  let failing : Impl (@nanomdm.Call types) nat := fun X c n =>
    match c in nanomdm.Call X return X * nat with
    | nanomdm.StoreAuthenticate _ _ _ => (Some (errors_New "disk full"), S n)
    | c' => counting c' n
    end in
  let '(res, n, t) := run failing (nanomdm.Authenticate service request authenticate_AAA) 0%nat in
  res.2 = Some (errors_New "disk full") /\ n = 1%nat
  /\ length (calls nanomdm.is_store t) = 1%nat.
Proof. repeat split. Qed.

Example invalid_enrollment_makes_no_call :
  run counting (nanomdm.CommandAndReportResults service_with_handlers request
                  {| CommandResults_Enrollment := empty_block; CommandUUID := "U1";
                     Status := "Acknowledged"; CommandResults_Raw := [] |}) 0%nat
  = ((request, (None, Some (errors_New "nil enrollment ID"))), 0%nat, []).
Proof. reflexivity. Qed.

Lemma methods_start_with_setupRequest_witness :
  Validate (nanomdm.normalizer service_with_handlers empty_block)
  = Some (errors_New "nil enrollment ID")
  /\ nanomdm.starts_with_setupRequest counting 0%nat service_with_handlers request
       empty_block
       (nanomdm.CommandAndReportResults service_with_handlers request
          {| CommandResults_Enrollment := empty_block; CommandUUID := "U1";
             Status := "Acknowledged"; CommandResults_Raw := [] |})
       (fun err => (None, Some err))
  /\ nanomdm.starts_with_setupRequest counting 0%nat service request device_AAA
       (nanomdm.Authenticate service request authenticate_AAA) Some.
Proof.
  split; [reflexivity|].
  destruct (@methods_start_with_setupRequest types externals nat counting
              service_with_handlers request 0%nat)
    as (_ & _ & _ & _ & _ & _ & _ & _ & Hcommand).
  destruct (@methods_start_with_setupRequest types externals nat counting
              service request 0%nat) as (Hauthenticate & _).
  split.
  - exact (Hcommand {| CommandResults_Enrollment := empty_block; CommandUUID := "U1";
                       Status := "Acknowledged"; CommandResults_Raw := [] |}).
  - exact (Hauthenticate authenticate_AAA).
Defined.

Lemma optional_handlers_witness :
  Validate (nanomdm.normalizer service device_AAA) = None
  /\ (run counting
        (nanomdm.UserAuthenticate service request
           {| UserAuthenticate_Enrollment := device_AAA; DigestResponse := "";
              UserAuthenticate_Raw := [] |}) 0%nat).1
     = ((nanomdm.installed service request device_AAA,
         ([], Some (errors_New "no UserAuthenticate handler"))), 0%nat)
  /\ (run counting
        (nanomdm.DeclarativeManagement service_with_handlers request
           {| DeclarativeManagement_Enrollment := device_AAA; Endpoint := "tokens";
              Data := []; DeclarativeManagement_Raw := [] |}) 0%nat).1.1.2
     = ([], None)
  /\ (run counting
        (nanomdm.GetToken service request
           {| GetToken_Enrollment := device_AAA; TokenServiceType := "com.apple.maid";
              GetToken_Raw := [] |}) 0%nat).1.1.2
     = (None, Some (errors_New "no GetToken handler")).
Proof.
  split; [reflexivity|].
  destruct (@optional_handlers types externals nat counting service request 0%nat)
    as (HU & _ & HG).
  destruct (@optional_handlers types externals nat counting service_with_handlers
              request 0%nat)
    as (_ & HD & _).
  specialize (HU {| UserAuthenticate_Enrollment := device_AAA; DigestResponse := "";
                    UserAuthenticate_Raw := [] |} eq_refl).
  specialize (HD {| DeclarativeManagement_Enrollment := device_AAA; Endpoint := "tokens";
                    Data := []; DeclarativeManagement_Raw := [] |} eq_refl).
  specialize (HG {| GetToken_Enrollment := device_AAA; TokenServiceType := "com.apple.maid";
                    GetToken_Raw := [] |} eq_refl).
  split; [|split].
  - reflexivity.
  - exact (proj1 HD).
  - exact (proj1 HG).
Defined.

Lemma CommandAndReportResults_skipNotNow_witness :
  Validate (nanomdm.normalizer service (CommandResults_Enrollment report_NotNow)) = None
  /\ nanomdm.skipNotNow_flags
       (run counting (nanomdm.CommandAndReportResults service request report_NotNow) 0%nat).2
     = [true]
  /\ nanomdm.skipNotNow_flags
       (run counting (nanomdm.CommandAndReportResults service request report_Idle) 0%nat).2
     = [false].
Proof.
  split; [reflexivity|].
  pose proof (@CommandAndReportResults_skipNotNow types externals nat counting service request
                report_NotNow 0%nat eq_refl) as HN.
  pose proof (@CommandAndReportResults_skipNotNow types externals nat counting service request
                report_Idle 0%nat eq_refl) as HI.
  split.
  - exact (proj1 (proj2 (proj2 HN))).
  - exact (proj1 (proj2 (proj2 HI))).
Defined.

(** C1 as stated fails: after a report with status "NotNow" the flag passed
    to RetrieveNextCommand is [true], not [false]; after an "Idle" report
    it is [false]. *)
Lemma skipNotNow_false_iff_NotNow_counterexample :
  ~ (nanomdm.skipNotNow_flags
       (run counting (nanomdm.CommandAndReportResults service request report_NotNow) 0%nat).2
     = [false]
     <-> Status report_NotNow = "NotNow")
  /\ ~ (nanomdm.skipNotNow_flags
         (run counting (nanomdm.CommandAndReportResults service request report_Idle) 0%nat).2
       = [false]
       <-> Status report_Idle = "NotNow").
Proof.
  split.
  - intros [_ Hflag]. specialize (Hflag eq_refl). discriminate Hflag.
  - intros [Hstatus _]. specialize (Hstatus eq_refl). discriminate Hstatus.
Qed.

(** ** The HTTP adapter *)

Example first_value_of_each_parameter :
  (m ← http.RequestFromHTTP (http_request [("id", "1"); ("v", "a"); ("id", "2")]);
   p ← Params m;
   Some (p !! "id", p !! "v", p !! "x"))
  = Some (Some "1", Some "a", None).
Proof. vm_compute. reflexivity. Qed.

Example no_parameters :
  Params <$> http.RequestFromHTTP (http_request []) = Some None.
Proof. reflexivity. Qed.


(** A status that [http.Error] refuses: the handler logs its line and
    panics. *)
Example status_without_three_digits_panics :
  let '(res, _, t) :=
    run (failing_service (HTTPStatusError 0 None))
      (http.CommandAndReportResultsHandler (tt : @CommandService types)
         (tt : @Logger types) go.NewRecorder (http_request [])) tt in
  res = None /\ length (logged t) = 1%nat.
Proof. split; reflexivity. Qed.


End on_concrete_inputs.

(** * Further properties of the cert-auth storage *)
Section certauth_properties.
Import mdm pgsql certauth.

Lemma where_touch t a b conds row : where_ conds (touch t a b row) = where_ conds row.
Proof.
  unfold where_. induction conds as [|[c v] conds IH]; simpl; [reflexivity|].
  rewrite IH. destruct c; simpl; rewrite ?touch_id, ?touch_sha256; reflexivity.
Qed.

Lemma existsb_where_touch t a b conds l :
  existsb (where_ conds) (List.map (touch t a b) l) = existsb (where_ conds) l.
Proof.
  induction l as [|x l IH]; simpl; [reflexivity|].
  rewrite where_touch, IH. reflexivity.
Qed.

(** What a query sees after the upsert of [(a, b)]: what it saw before, and
    the new row if one was inserted. *)
Lemma Exec_upsert_existsb d a b conds :
  fault d = None ->
  exists l',
    Exec_upsert d a b = (None, {| cert_auth_associations := l'; now := now d; fault := None |})
    /\ existsb (pair a b) l' = true
    /\ existsb (where_ conds) l'
       = existsb (where_ conds) (cert_auth_associations d)
         || (negb (existsb (pair a b) (cert_auth_associations d))
             && where_ conds {| id := a; sha256 := b;
                                created_at := now d; updated_at := now d |}).
Proof.
  intros Hf. unfold Exec_upsert. rewrite Hf.
  destruct (existsb (pair a b) (cert_auth_associations d)) eqn:Hex.
  - eexists. split; [reflexivity|]. split.
    + unfold pair. rewrite existsb_where_touch. exact Hex.
    + rewrite existsb_where_touch, orb_false_r. reflexivity.
  - eexists. split; [reflexivity|]. split.
    + rewrite existsb_app; simpl. replace (pair a b _) with true by (symmetry; apply pair_true; auto). apply orb_true_r.
    + rewrite existsb_app; simpl. rewrite orb_false_r. reflexivity.
Qed.

Section with_types.
Context `{GoTypes} `{!go.Library}.

(** The storage after [AssociateCertHash], from the upsert on its database. *)
Lemma AssociateCertHash_inv (s : PgSQLStorage) (r : Request) hash err s' :
  AssociateCertHash s r hash = Some (err, s') ->
  exists eid,
    Request_EnrollID r = Some eid
    /\ Exec_upsert (db s) (ID eid) (go.strings_ToLower hash) = (err, db s').
Proof.
  unfold AssociateCertHash, Request_ID.
  destruct (Request_EnrollID r) as [eid|]; [|discriminate]. simpl.
  destruct (Exec_upsert _ _ _) as [err0 d] eqn:E. intros [= <- <-].
  exists eid. split; [reflexivity | exact E].
Qed.

(** X1.  What AssociateCertHash stores can be looked up: after a successful
    call for a request and a hash, IsCertHashAssociated, HasCertHash and
    EnrollmentHasCertHash all answer true for that request and for every
    capitalization of the hash. *)
Theorem associate_then_lookup
    (s : PgSQLStorage) (r : Request) (eid : EnrollID) (hash hash' : string) :
  fault (db s) = None ->
  Request_EnrollID r = Some eid ->
  go.strings_ToLower hash' = go.strings_ToLower hash ->
  exists s',
    AssociateCertHash s r hash = Some (None, s')
    /\ IsCertHashAssociated s' r hash' = Some (true, None)
    /\ HasCertHash s' r hash' = Some (true, None)
    /\ EnrollmentHasCertHash s' r hash' = Some (true, None).
Proof.
  intros Hf Hr Hcap.
  destruct (Exec_upsert_existsb (db s) (ID eid) (go.strings_ToLower hash) [] Hf)
    as (l' & E & Hpair & _).
  rewrite (AssociateCertHash_unfold _ _ eid) by assumption. rewrite E.
  eexists. split; [reflexivity|].
  apply existsb_exists in Hpair as (row & Hin & [Hid Hsha]%pair_true).
  unfold IsCertHashAssociated, HasCertHash, EnrollmentHasCertHash, Request_ID.
  rewrite Hr, Hcap. simpl.
  rewrite !queryRowContextRowExists_existsb. simpl. unfold rows. simpl.
  repeat split; do 2 f_equal; apply existsb_exists; exists row;
    (split; [exact Hin|]); unfold where_; simpl;
    rewrite ?Hid, ?Hsha, ?String.eqb_refl; reflexivity.
Qed.

(** X2.  AssociateCertHash never loses an association and touches no other
    one: whatever the three lookups answered true before the call, they
    answer true after it, and a lookup for another enrollment id or for a
    hash that differs by more than capitalization answers as before. *)
Theorem associations_kept
    (s s' : PgSQLStorage) (r r' : Request) (hash h' : string) (err : option error) :
  AssociateCertHash s r hash = Some (err, s') ->
  (IsCertHashAssociated s r' h' = Some (true, None) ->
   IsCertHashAssociated s' r' h' = Some (true, None))
  /\ (HasCertHash s r' h' = Some (true, None) ->
      HasCertHash s' r' h' = Some (true, None))
  /\ (EnrollmentHasCertHash s r' h' = Some (true, None) ->
      EnrollmentHasCertHash s' r' h' = Some (true, None))
  /\ (Request_ID r' <> Request_ID r ->
      EnrollmentHasCertHash s' r' h' = EnrollmentHasCertHash s r' h'
      /\ IsCertHashAssociated s' r' h' = IsCertHashAssociated s r' h')
  /\ (go.strings_ToLower h' <> go.strings_ToLower hash ->
      HasCertHash s' r' h' = HasCertHash s r' h'
      /\ IsCertHashAssociated s' r' h' = IsCertHashAssociated s r' h').
Proof.
  intros (eid & Hr & Hup)%AssociateCertHash_inv.
  unfold IsCertHashAssociated, HasCertHash, EnrollmentHasCertHash, Request_ID.
  rewrite Hr. simpl.
  destruct (fault (db s)) as [e|] eqn:Hf.
  { (* the statement failed: the database is the one before *)
    unfold Exec_upsert in Hup. rewrite Hf in Hup. injection Hup as _ Hdb.
    destruct (Request_EnrollID r') as [eid'|]; simpl;
      rewrite !queryRowContextRowExists_existsb, <- Hdb, Hf;
      repeat split; intros; try discriminate; reflexivity. }
  assert (Hq : forall conds c,
             queryRowContextRowExists s' c conds
             = (existsb (where_ conds) (rows s)
                || (negb (existsb (pair (ID eid) (go.strings_ToLower hash)) (rows s))
                    && where_ conds {| id := ID eid; sha256 := go.strings_ToLower hash;
                                       created_at := now (db s);
                                       updated_at := now (db s) |}), None)).
  { intros conds c.
    destruct (Exec_upsert_existsb (db s) (ID eid) (go.strings_ToLower hash) conds Hf)
      as (l' & E & _ & Hconds).
    rewrite E in Hup. injection Hup as _ Hdb.
    rewrite queryRowContextRowExists_existsb. unfold rows at 1.
    rewrite <- Hdb. simpl. rewrite Hconds. reflexivity. }
  assert (Hq0 : forall conds c,
             queryRowContextRowExists s c conds = (existsb (where_ conds) (rows s), None)).
  { intros conds c. rewrite queryRowContextRowExists_existsb, Hf. reflexivity. }
  destruct (Request_EnrollID r') as [eid'|]; simpl; rewrite ?Hq, ?Hq0.
  - repeat split.
    + intros [= ->]. reflexivity.
    + intros [= ->]. reflexivity.
    + intros [= ->]. reflexivity.
    + do 2 f_equal. unfold where_; simpl.
      replace (String.eqb (ID eid) (ID eid')) with false;
        [rewrite andb_false_r, orb_false_r; reflexivity|].
      symmetry. apply String.eqb_neq. congruence.
    + do 2 f_equal. unfold where_; simpl.
      replace (String.eqb (ID eid) (ID eid')) with false;
        [rewrite andb_false_r, orb_false_r; reflexivity|].
      symmetry. apply String.eqb_neq. congruence.
    + do 2 f_equal. unfold where_; simpl.
      replace (String.eqb (go.strings_ToLower hash) (go.strings_ToLower h')) with false;
        [rewrite andb_false_r, orb_false_r; reflexivity|].
      symmetry. apply String.eqb_neq. congruence.
    + do 2 f_equal. unfold where_; simpl.
      replace (String.eqb (go.strings_ToLower hash) (go.strings_ToLower h')) with false;
        [rewrite !andb_false_r, orb_false_r; reflexivity|].
      symmetry. apply String.eqb_neq. congruence.
  - repeat split; try discriminate; try reflexivity.
    + intros [= ->]. reflexivity.
    + do 2 f_equal. unfold where_; simpl.
      replace (String.eqb (go.strings_ToLower hash) (go.strings_ToLower h')) with false;
        [rewrite andb_false_r, orb_false_r; reflexivity|].
      symmetry. apply String.eqb_neq. congruence.
Qed.

End with_types.

Section with_types_2.
Context `{GoTypes} `{!go.Library}.


Lemma lowercase_In l row :
  lowercase l = true -> In row l -> go.strings_ToLower (sha256 row) = sha256 row.
Proof.
  unfold lowercase. rewrite forallb_forall. intros Hall Hin.
  apply String.eqb_eq. exact (Hall row Hin).
Qed.

Lemma filter_head_In {A} (f : A -> bool) l x rest :
  List.filter f l = x :: rest -> In x l /\ f x = true.
Proof.
  intros E. apply filter_In. rewrite E. left. reflexivity.
Qed.

(** X3.  A failing statement is reported as it is: when the database
    answers a statement with an error, the three lookups return false
    together with that error, AssociateCertHash returns the error and leaves
    the table as it was, and EnrollmentFromHash returns the empty id with the
    error, or without it when the error is [sql.ErrNoRows]. *)
Theorem failing_statement_is_reported
    (s : PgSQLStorage) (r : Request) (eid : EnrollID) (c : GoContext)
    (hash : string) (e : error) :
  fault (db s) = Some e ->
  Request_EnrollID r = Some eid ->
  HasCertHash s r hash = Some (false, Some e)
  /\ EnrollmentHasCertHash s r hash = Some (false, Some e)
  /\ IsCertHashAssociated s r hash = Some (false, Some e)
  /\ AssociateCertHash s r hash = Some (Some e, s)
  /\ EnrollmentFromHash s c hash
     = ("", if errors_Is_ErrNoRows e then None else Some e).
Proof.
  intros Hf Hr.
  unfold HasCertHash, EnrollmentHasCertHash, IsCertHashAssociated, Request_ID.
  rewrite (AssociateCertHash_unfold _ _ eid) by assumption.
  rewrite Hr. simpl. rewrite !queryRowContextRowExists_existsb, Hf.
  repeat split.
  - unfold Exec_upsert. rewrite Hf. destruct s. reflexivity.
  - unfold EnrollmentFromHash, QueryRow_id_limit1. rewrite Hf.
    destruct (errors_Is_ErrNoRows e); reflexivity.
Qed.

(** X4.  The reverse lookup answers with a bound enrollment: when some
    enrollment has the hash, given in lowercase, EnrollmentFromHash returns
    an id without error, and IsCertHashAssociated confirms the hash for
    every request that carries this id. *)
Theorem EnrollmentFromHash_returns_associated
    (s : PgSQLStorage) (r : Request) (c : GoContext) (hash : string) :
  fault (db s) = None ->
  go.strings_ToLower hash = hash ->
  HasCertHash s r hash = Some (true, None) ->
  exists rid,
    EnrollmentFromHash s c hash = (rid, None)
    /\ forall (r' : Request) (eid' : EnrollID),
        Request_EnrollID r' = Some eid' -> ID eid' = rid ->
        IsCertHashAssociated s r' hash = Some (true, None).
Proof.
  intros Hf Hlow. unfold HasCertHash.
  rewrite queryRowContextRowExists_existsb, Hf, Hlow. intros [= Hex].
  unfold EnrollmentFromHash, QueryRow_id_limit1. rewrite Hf. fold (rows s).
  destruct (List.filter (where_ [(col_sha256, hash)]) (rows s)) as [|row rest] eqn:Efil.
  { apply filter_nil_existsb in Efil. congruence. }
  apply filter_head_In in Efil as [Hin Hrow%where_sha256_true].
  exists (id row). split; [reflexivity|].
  intros r' eid' Hr' Hid.
  unfold IsCertHashAssociated, Request_ID. rewrite Hr'. simpl.
  rewrite queryRowContextRowExists_existsb, Hf, Hlow. do 2 f_equal.
  apply existsb_exists. exists row. split; [exact Hin|].
  apply pair_true. split; congruence.
Qed.

(** X5.  Insert and reverse lookup: when no other enrollment has the hash,
    after a successful AssociateCertHash for a request EnrollmentFromHash
    called with the lowercased hash returns the id of that request. *)
Theorem associate_then_EnrollmentFromHash
    (s : PgSQLStorage) (r : Request) (eid : EnrollID) (c : GoContext) (hash : string) :
  fault (db s) = None ->
  Request_EnrollID r = Some eid ->
  (forall row, In row (rows s) ->
               sha256 row = go.strings_ToLower hash -> id row = ID eid) ->
  exists s',
    AssociateCertHash s r hash = Some (None, s')
    /\ EnrollmentFromHash s' c (go.strings_ToLower hash) = (ID eid, None).
Proof.
  intros Hf Hr Honly.
  rewrite (AssociateCertHash_unfold _ _ eid) by assumption.
  unfold Exec_upsert. rewrite Hf. eexists. split; [reflexivity|].
  unfold EnrollmentFromHash, QueryRow_id_limit1. simpl.
  set (b := go.strings_ToLower hash) in *.
  destruct (List.filter _ _) as [|row rest] eqn:Efil.
  - exfalso. apply filter_nil_existsb in Efil.
    destruct (existsb (pair (ID eid) b) (cert_auth_associations (db s))) eqn:Hex.
    + rewrite existsb_where_touch in Efil.
      apply existsb_exists in Hex as (row & Hin & [_ Hb]%pair_true).
      assert (existsb (where_ [(col_sha256, b)]) (cert_auth_associations (db s)) = true)
        as Hyes; [|congruence].
      apply existsb_exists. exists row. split; [exact Hin|].
      apply where_sha256_true. exact Hb.
    + rewrite existsb_app in Efil.
      apply orb_false_iff in Efil as [_ Enew]. unfold where_ in Enew. simpl in Enew.
      rewrite String.eqb_refl in Enew. discriminate.
  - apply filter_head_In in Efil as [Hin Hrow%where_sha256_true].
    f_equal.
    destruct (existsb (pair (ID eid) b) (cert_auth_associations (db s))).
    + apply in_map_iff in Hin as (old & <- & Hold).
      rewrite touch_sha256 in Hrow. rewrite touch_id.
      exact (Honly old Hold Hrow).
    + apply in_app_iff in Hin as [Hold | [<- | []]]; [|reflexivity].
      exact (Honly row Hold Hrow).
Qed.


(** X7.  In a table whose hashes are all lowercase, the state
    AssociateCertHash keeps, EnrollmentFromHash finds nothing for a hash
    spelled with an uppercase letter: it returns the empty id and no error,
    whatever HasCertHash answers for the same string. *)
Theorem EnrollmentFromHash_misses_uppercase
    (s : PgSQLStorage) (c : GoContext) (hash : string) :
  fault (db s) = None ->
  lowercase (rows s) = true ->
  go.strings_ToLower hash <> hash ->
  EnrollmentFromHash s c hash = ("", None).
Proof.
  intros Hf Hlow Hup.
  unfold EnrollmentFromHash, QueryRow_id_limit1. rewrite Hf. fold (rows s).
  destruct (List.filter _ _) as [|row rest] eqn:Efil; [reflexivity|].
  apply filter_head_In in Efil as [Hin Hrow%where_sha256_true].
  exfalso. apply Hup. rewrite <- Hrow. exact (lowercase_In _ _ Hlow Hin).
Qed.

End with_types_2.

End certauth_properties.

Section certauth_on_concrete_inputs.
Import mdm pgsql certauth certauth_examples examples.
#[local] Existing Instance examples.types.
#[local] Existing Instance examples.library.

Lemma associate_then_lookup_witness :
  (fault (db two_enrollments) = None
   /\ Request_EnrollID request_AAA = Some eid_AAA
   /\ go.strings_ToLower "eF56" = go.strings_ToLower "EF56")
  /\ exists s',
      AssociateCertHash two_enrollments request_AAA "EF56" = Some (None, s')
      /\ IsCertHashAssociated s' request_AAA "eF56" = Some (true, None)
      /\ HasCertHash s' request_AAA "eF56" = Some (true, None)
      /\ EnrollmentHasCertHash s' request_AAA "eF56" = Some (true, None).
Proof.
  split; [repeat split|].
  apply (@associate_then_lookup types library two_enrollments request_AAA eid_AAA "EF56" "eF56");
    reflexivity.
Defined.

Lemma associations_kept_witness :
  (AssociateCertHash two_enrollments request_AAA "EF56" = Some (None, three_associations)
   /\ IsCertHashAssociated two_enrollments request_BBB "CD34" = Some (true, None)
   /\ Request_ID request_BBB <> Request_ID request_AAA
   /\ go.strings_ToLower "CD34" <> go.strings_ToLower "EF56")
  /\ IsCertHashAssociated three_associations request_BBB "CD34" = Some (true, None)
  /\ EnrollmentHasCertHash three_associations request_BBB "CD34"
     = EnrollmentHasCertHash two_enrollments request_BBB "CD34"
  /\ HasCertHash three_associations request_BBB "CD34"
     = HasCertHash two_enrollments request_BBB "CD34".
Proof.
  assert (Hid : Request_ID request_BBB <> Request_ID request_AAA) by discriminate.
  assert (Hsha : go.strings_ToLower "CD34" <> go.strings_ToLower "EF56") by discriminate.
  split; [repeat split; assumption|].
  destruct (@associations_kept types library two_enrollments three_associations
              request_AAA request_BBB "EF56" "CD34" None eq_refl)
    as (Hkept & _ & _ & Hother_id & Hother_hash).
  split; [exact (Hkept eq_refl)|].
  split; [exact (proj1 (Hother_id Hid)) | exact (proj1 (Hother_hash Hsha))].
Defined.

Lemma failing_statement_is_reported_witness :
  (fault (db unreachable_storage) = Some (errors_New "connection refused")
   /\ Request_EnrollID request_AAA = Some eid_AAA)
  /\ HasCertHash unreachable_storage request_AAA "ab12"
     = Some (false, Some (errors_New "connection refused"))
  /\ EnrollmentHasCertHash unreachable_storage request_AAA "ab12"
     = Some (false, Some (errors_New "connection refused"))
  /\ IsCertHashAssociated unreachable_storage request_AAA "ab12"
     = Some (false, Some (errors_New "connection refused"))
  /\ AssociateCertHash unreachable_storage request_AAA "ab12"
     = Some (Some (errors_New "connection refused"), unreachable_storage)
  /\ EnrollmentFromHash unreachable_storage (tt : @GoContext types) "ab12"
     = ("", if errors_Is_ErrNoRows (errors_New "connection refused")
            then None else Some (errors_New "connection refused")).
Proof.
  split; [repeat split|].
  apply (@failing_statement_is_reported types library unreachable_storage request_AAA eid_AAA
           (tt : @GoContext types) "ab12" (errors_New "connection refused"));
    reflexivity.
Defined.

Lemma EnrollmentFromHash_returns_associated_witness :
  (fault (db two_enrollments) = None
   /\ go.strings_ToLower "cd34" = "cd34"
   /\ HasCertHash two_enrollments request_AAA "cd34" = Some (true, None))
  /\ exists rid,
      EnrollmentFromHash two_enrollments (tt : @GoContext types) "cd34" = (rid, None)
      /\ forall (r' : Request) (eid' : EnrollID),
          Request_EnrollID r' = Some eid' -> ID eid' = rid ->
          IsCertHashAssociated two_enrollments r' "cd34" = Some (true, None).
Proof.
  split; [repeat split|].
  apply (@EnrollmentFromHash_returns_associated types library two_enrollments request_AAA
           (tt : @GoContext types) "cd34"); reflexivity.
Defined.

Lemma associate_then_EnrollmentFromHash_witness :
  (fault (db two_enrollments) = None
   /\ Request_EnrollID request_BBB = Some eid_BBB
   /\ (forall row, In row (rows two_enrollments) ->
                   sha256 row = go.strings_ToLower "CD34" -> id row = ID eid_BBB))
  /\ exists s',
      AssociateCertHash two_enrollments request_BBB "CD34" = Some (None, s')
      /\ EnrollmentFromHash s' (tt : @GoContext types) (go.strings_ToLower "CD34")
         = (ID eid_BBB, None).
Proof.
  assert (Honly : forall row, In row (rows two_enrollments) ->
                              sha256 row = go.strings_ToLower "CD34" -> id row = ID eid_BBB).
  { intros row [<- | [<- | []]]; [discriminate | reflexivity]. }
  split; [repeat split; [exact Honly]|].
  apply (@associate_then_EnrollmentFromHash types library two_enrollments request_BBB eid_BBB
           (tt : @GoContext types) "CD34"); [reflexivity | reflexivity | exact Honly].
Defined.


Lemma EnrollmentFromHash_misses_uppercase_witness :
  (fault (db two_enrollments) = None
   /\ lowercase (rows two_enrollments) = true
   /\ go.strings_ToLower "AB12" <> "AB12")
  /\ EnrollmentFromHash two_enrollments (tt : @GoContext types) "AB12" = ("", None).
Proof.
  assert (Hup : go.strings_ToLower "AB12" <> "AB12") by discriminate.
  split; [repeat split; exact Hup|].
  apply (@EnrollmentFromHash_misses_uppercase types library two_enrollments
           (tt : @GoContext types) "AB12"); [reflexivity | reflexivity | exact Hup].
Defined.

End certauth_on_concrete_inputs.

(** * Further properties of the HTTP adapter *)
Section adapter_properties.
Import mdm effects http mux.
Context `{GoTypes} `{!Externals} `{!go.Library}.

Lemma RequestFromHTTP_total (r : HTTPRequest) : exists m, RequestFromHTTP r = Some m.
Proof.
  unfold RequestFromHTTP. rewrite url_Query_size.
  destruct (URL_RawQuery r) as [|kv pairs]; [eexists; reflexivity|].
  rewrite bool_decide_eq_false_2 by discriminate. simpl negb. cbv iota.
  rewrite first_values by apply url_Query_nonempty_values. eexists. reflexivity.
Qed.

(** Induction along the chain of causes. *)
Lemma error_chain_ind (P : error -> Prop) :
  (forall text, P (errors_New text)) ->
  P sql_ErrNoRows ->
  (forall format, P (fmt_Errorf format None)) ->
  (forall format e, P e -> P (fmt_Errorf format (Some e))) ->
  (forall status, P (HTTPStatusError status None)) ->
  (forall status e, P e -> P (HTTPStatusError status (Some e))) ->
  (forall content, P (ParseError None content)) ->
  (forall e content, P e -> P (ParseError (Some e) content)) ->
  forall err, P err.
Proof.
  intros Hnew Hrows Hf0 Hf Hs0 Hs Hp0 Hp.
  fix IH 1. intros [text | | format [e|] | status [e|] | [e|] content].
  - apply Hnew.
  - apply Hrows.
  - apply Hf, IH.
  - apply Hf0.
  - apply Hs, IH.
  - apply Hs0.
  - apply Hp, IH.
  - apply Hp0.
Qed.

(** Below an HTTPStatusError met first, the ParseError found in the whole
    chain is the one found in the cause of the HTTPStatusError. *)
Lemma errors_As_ParseError_below_status (err : error) status cause :
  errors_As_HTTPStatusError err = Some (status, cause) ->
  ParseError_outside err = false ->
  errors_As_ParseError err
  = match cause with Some e => errors_As_ParseError e | None => None end.
Proof.
  induction err as [text | | format | format e IH | st | st e IH | content | e content IH]
    using error_chain_ind; simpl; try discriminate.
  - exact IH.
  - intros [= _ <-] _. reflexivity.
  - intros [= _ <-] _. reflexivity.
Qed.

Section with_implementation.
Context {W : Type} (hh : Impl Call W).

(** X8.  When the body cannot be read, both handlers answer 500 with the
    status text and a newline as body, log the error once and call no
    service. *)
Theorem unreadable_body_is_500
    (w0 w1 : W) (w : go.ResponseWriter) (r : HTTPRequest)
    (svc : CheckinService) (svc' : CommandService) (logger : Logger)
    (bodyBytes : bytes) (e : error) :
  go.Code w = None ->
  hh _ (ReadAllAndReplaceBody r) w0 = ((bodyBytes, Some e), w1) ->
  let line :=
    {| log_ctx := http_Context r; log_logger := logger;
       log_keyvals := [LStr "msg"; LStr "reading body"; LStr "err"; LErr (Some e)] |} in
  let response w' :=
    go.Code w' = Some 500
    /\ go.Body w' = go.Body w ++ list_byte_of_string "Internal Server Error" ++ [Byte.x0a] in
  (exists handler w',
      CheckinHandler (Some svc) (Some logger) = Some handler
      /\ run hh (handler w r) w0
         = (Some w', w1, [Ev (ReadAllAndReplaceBody r) (bodyBytes, Some e); Logged line])
      /\ response w')
  /\ (exists w',
        run hh (CommandAndReportResultsHandler svc' logger w r) w0
        = (Some w', w1, [Ev (ReadAllAndReplaceBody r) (bodyBytes, Some e); Logged line])
        /\ response w').
Proof.
  intros Hw Hread line response.
  destruct (http_Error_unwritten w (go.http_StatusText 500) 500 Hw) as (w' & He & Hresp).
  split.
  - eexists. exists w'. split; [reflexivity|]. split; [|exact Hresp].
    rewrite <- He. simpl. unfold bytes in *. rewrite Hread. reflexivity.
  - exists w'. split; [|exact Hresp].
    rewrite <- He. unfold CommandAndReportResultsHandler. simpl. unfold bytes in *.
    rewrite Hread. reflexivity.
Qed.

(** X9.  When the body is read and the service returns no error, both
    handlers call the service once, with the request adapted by
    RequestFromHTTP and the bytes read, log nothing, and answer 200 with
    exactly the bytes of the service as body, also when there are none.
    The header map is left as it is when it has a Content-Type or a
    Transfer-Encoding; otherwise the response gets the Content-Type that
    is sniffed from the bytes of the service, and no other header
    changes. *)
Theorem service_answer_is_200
    (w0 w1 w2 : W) (w : go.ResponseWriter) (r : HTTPRequest) (logger : Logger)
    (m : Request) (bodyBytes respBytes : bytes) :
  go.Code w = None ->
  RequestFromHTTP r = Some m ->
  hh _ (ReadAllAndReplaceBody r) w0 = ((bodyBytes, None), w1) ->
  let response w' :=
    go.Code w' = Some 200
    /\ go.Body w' = go.Body w ++ respBytes
    /\ (is_Some (go.HeaderMap w !! "Content-Type")
        \/ default "" (go.HeaderMap w !! "Transfer-Encoding") <> "" ->
        go.HeaderMap w' = go.HeaderMap w)
    /\ (go.HeaderMap w !! "Content-Type" = None ->
        default "" (go.HeaderMap w !! "Transfer-Encoding") = "" ->
        go.HeaderMap w'
        = <["Content-Type" := go.http_DetectContentType respBytes]> (go.HeaderMap w)) in
  (forall svc,
      hh _ (CheckinRequest svc m bodyBytes) w1 = ((respBytes, None), w2) ->
      exists handler w',
        CheckinHandler (Some svc) (Some logger) = Some handler
        /\ run hh (handler w r) w0
           = (Some w', w2,
              [Ev (ReadAllAndReplaceBody r) (bodyBytes, None);
               Ev (CheckinRequest svc m bodyBytes) (respBytes, None)])
        /\ response w')
  /\ (forall svc,
        hh _ (CommandAndReportResultsRequest svc m bodyBytes) w1 = ((respBytes, None), w2) ->
        exists w',
          run hh (CommandAndReportResultsHandler svc logger w r) w0
          = (Some w', w2,
             [Ev (ReadAllAndReplaceBody r) (bodyBytes, None);
              Ev (CommandAndReportResultsRequest svc m bodyBytes) (respBytes, None)])
          /\ response w').
Proof.
  intros Hw Hm Hread response.
  assert (Hresp : response (go.Write respBytes w)).
  { unfold response, go.Write, go.sniffs. rewrite Hw. simpl.
    split; [reflexivity|]. split; [reflexivity|]. split.
    - intros [Htype | Hte].
      + rewrite bool_decide_eq_true_2 by exact Htype. reflexivity.
      + apply String.eqb_neq in Hte. rewrite Hte, andb_false_r. reflexivity.
    - intros Htype Hte.
      rewrite bool_decide_eq_false_2 by (rewrite Htype; apply is_Some_None).
      rewrite Hte. reflexivity. }
  split; intros svc Hsvc.
  - eexists. eexists. split; [reflexivity|]. split; [|exact Hresp].
    simpl. unfold bytes in *. rewrite Hread, Hm. simpl. rewrite Hsvc. reflexivity.
  - eexists. split; [|exact Hresp].
    unfold CommandAndReportResultsHandler. simpl. unfold bytes in *.
    rewrite Hread, Hm. simpl. rewrite Hsvc. reflexivity.
Qed.

(** The line of the error branch when the ParseError is in reach. *)
Lemma report_error_logs_content
    (logger : Logger) (msg : string) (w : go.ResponseWriter) (r : HTTPRequest)
    (err : error) (cause : option error) (content : bytes) (w0 : W) :
  errors_As_ParseError err = Some (cause, content) ->
  ParseError_outside err = false \/ errors_As_HTTPStatusError err = None ->
  exists w' status,
    run hh (report_error logger msg w r err) w0
    = (w', w0,
       [Logged
          {| log_ctx := http_Context r; log_logger := logger;
             log_keyvals := [LStr "msg"; LStr msg;
                             LStr "content"; LStr (string_of_bytes content);
                             LStr "http_status"; LInt status;
                             LStr "err";
                             LErr (Some (fmt_Errorf "parse error: %w" cause))] |}]).
Proof.
  intros Hparse Hwhere. rewrite run_report_error. simpl.
  destruct (errors_As_HTTPStatusError err) as [[status inner]|] eqn:Hstatus.
  - destruct Hwhere as [Hout | ?]; [|discriminate].
    rewrite (errors_As_ParseError_below_status err status inner Hstatus Hout) in Hparse.
    simpl. rewrite Hparse. eexists. eexists. reflexivity.
  - rewrite Hparse. eexists. eexists. reflexivity.
Qed.

(** X10.  The content of a ParseError reaches the log unless the ParseError
    wraps the HTTPStatusError from outside: when the service call of either
    handler returns an error whose first ParseError is not met before an
    HTTPStatusError, or which wraps no HTTPStatusError, the one line the
    handler logs carries the content of that ParseError under "content"
    and, under "err", its cause wrapped as a parse error. *)
Theorem ParseError_content_is_logged
    (w0 w1 w2 : W) (w : go.ResponseWriter) (r : HTTPRequest) (logger : Logger)
    (m : Request) (bodyBytes respBytes : bytes)
    (err : error) (cause : option error) (content : bytes) :
  RequestFromHTTP r = Some m ->
  hh _ (ReadAllAndReplaceBody r) w0 = ((bodyBytes, None), w1) ->
  errors_As_ParseError err = Some (cause, content) ->
  ParseError_outside err = false \/ errors_As_HTTPStatusError err = None ->
  let line msg status :=
    {| log_ctx := http_Context r; log_logger := logger;
       log_keyvals := [LStr "msg"; LStr msg;
                       LStr "content"; LStr (string_of_bytes content);
                       LStr "http_status"; LInt status;
                       LStr "err"; LErr (Some (fmt_Errorf "parse error: %w" cause))] |} in
  (forall svc,
      hh _ (CheckinRequest svc m bodyBytes) w1 = ((respBytes, Some err), w2) ->
      exists handler status,
        CheckinHandler (Some svc) (Some logger) = Some handler
        /\ logged (run hh (handler w r) w0).2 = [line "check-in request" status])
  /\ (forall svc,
        hh _ (CommandAndReportResultsRequest svc m bodyBytes) w1
        = ((respBytes, Some err), w2) ->
        exists status,
          logged (run hh (CommandAndReportResultsHandler svc logger w r) w0).2
          = [line "command report results" status]).
Proof.
  intros Hm Hread Hparse Hwhere line.
  split; intros svc Hsvc.
  - destruct (report_error_logs_content logger "check-in request" w r err cause content
                w2 Hparse Hwhere) as (w' & status & Hrun).
    eexists. exists status. split; [reflexivity|].
    simpl. unfold bytes in *. rewrite Hread, Hm. simpl. rewrite Hsvc.
    rewrite run_bind, Hrun. reflexivity.
  - destruct (report_error_logs_content logger "command report results" w r err cause
                content w2 Hparse Hwhere) as (w' & status & Hrun).
    exists status.
    unfold CommandAndReportResultsHandler. simpl. unfold bytes in *.
    rewrite Hread, Hm. simpl. rewrite Hsvc.
    rewrite run_bind, Hrun. reflexivity.
Qed.

(** X11.  The combined handler sends a request to exactly one of the two
    services: when the body is read, the check-in service is called once and
    the command service not at all if the Content-Type starts with
    application/x-apple-aspen-mdm-checkin; otherwise, also without a
    Content-Type, the command service is called once and the check-in
    service not at all. *)
Theorem CheckinAndCommandHandler_dispatch
    (service : CheckinAndCommandService) (logger : Logger)
    (w : go.ResponseWriter) (r : HTTPRequestWithHeader) (w0 w1 : W) (bodyBytes : bytes) :
  hh _ (ReadAllAndReplaceBody (request r)) w0 = ((bodyBytes, None), w1) ->
  exists m,
    RequestFromHTTP (request r) = Some m
    /\ let t := (run hh (CheckinAndCommandHandler service logger w r) w0).2 in
       if String.prefix "application/x-apple-aspen-mdm-checkin"
            (Header_Get (Header r) "Content-Type")
       then
         calls is_checkin t
         = [Ev (CheckinRequest (Checkin service) m bodyBytes)
               (hh _ (CheckinRequest (Checkin service) m bodyBytes) w1).1]
         /\ calls is_command t = []
       else
         calls is_command t
         = [Ev (CommandAndReportResultsRequest (CommandAndReportResults service) m bodyBytes)
               (hh _ (CommandAndReportResultsRequest (CommandAndReportResults service)
                        m bodyBytes) w1).1]
         /\ calls is_checkin t = [].
Proof.
  intros Hread. destruct (RequestFromHTTP_total (request r)) as [m Hm].
  exists m. split; [exact Hm|].
  unfold CheckinAndCommandHandler, strings_HasPrefix.
  destruct (String.prefix _ _); simpl; unfold bytes in *; rewrite Hread, Hm; simpl.
  - match goal with
    | |- context [hh ?X ?c w1] => destruct (hh X c w1) as [[respBytes [e|]] w2]
    end; simpl; rewrite ?run_bind, ?run_report_error; simpl; split; reflexivity.
  - match goal with
    | |- context [hh ?X ?c w1] => destruct (hh X c w1) as [[respBytes [e|]] w2]
    end; simpl; rewrite ?run_bind, ?run_report_error; simpl; split; reflexivity.
Qed.

End with_implementation.

End adapter_properties.

Section adapter_on_concrete_inputs.
Import mdm effects http mux examples.
#[local] Existing Instance examples.types.
#[local] Existing Instance examples.externals.
#[local] Existing Instance examples.library.

Lemma unreadable_body_is_500_witness :
  (go.Code go.NewRecorder = None
   /\ unreadable_body (errors_New "EOF") (ReadAllAndReplaceBody (http_request [])) tt
      = (([], Some (errors_New "EOF")), tt))
  /\ (exists handler w',
        CheckinHandler (Some (tt : @CheckinService types)) (Some (tt : @Logger types))
        = Some handler
        /\ run (unreadable_body (errors_New "EOF"))
             (handler go.NewRecorder (http_request [])) tt
           = (Some w', tt,
              [Ev (ReadAllAndReplaceBody (http_request [])) ([], Some (errors_New "EOF"));
               Logged {| log_ctx := tt : @GoContext types;
                         log_logger := tt : @Logger types;
                         log_keyvals := [LStr "msg"; LStr "reading body";
                                         LStr "err"; LErr (Some (errors_New "EOF"))] |}])
        /\ go.Code w' = Some 500
        /\ go.Body w' = go.Body go.NewRecorder
                        ++ list_byte_of_string "Internal Server Error" ++ [Byte.x0a])
  /\ (exists w',
        run (unreadable_body (errors_New "EOF"))
          (CommandAndReportResultsHandler (tt : @CommandService types)
             (tt : @Logger types) go.NewRecorder (http_request [])) tt
        = (Some w', tt,
           [Ev (ReadAllAndReplaceBody (http_request [])) ([], Some (errors_New "EOF"));
            Logged {| log_ctx := tt : @GoContext types;
                      log_logger := tt : @Logger types;
                      log_keyvals := [LStr "msg"; LStr "reading body";
                                      LStr "err"; LErr (Some (errors_New "EOF"))] |}])
        /\ go.Code w' = Some 500
        /\ go.Body w' = go.Body go.NewRecorder
                        ++ list_byte_of_string "Internal Server Error" ++ [Byte.x0a]).
Proof.
  split; [repeat split|].
  apply (@unreadable_body_is_500 types externals library unit (unreadable_body (errors_New "EOF"))
           tt tt go.NewRecorder (http_request [])
           (tt : @CheckinService types) (tt : @CommandService types) (tt : @Logger types)
           [] (errors_New "EOF") eq_refl eq_refl).
Defined.

Lemma service_answer_is_200_witness :
  (go.Code go.NewRecorder = None
   /\ go.HeaderMap go.NewRecorder !! "Content-Type" = None
   /\ default "" (go.HeaderMap go.NewRecorder !! "Transfer-Encoding") = ""
   /\ RequestFromHTTP (http_request []) = Some request
   /\ answering (list_byte_of_string "<plist/>") (ReadAllAndReplaceBody (http_request [])) tt
      = (([], None), tt)
   /\ answering (list_byte_of_string "<plist/>")
        (CheckinRequest (tt : @CheckinService types) request []) tt
      = ((list_byte_of_string "<plist/>", None), tt)
   /\ answering (list_byte_of_string "<plist/>")
        (CommandAndReportResultsRequest (tt : @CommandService types) request []) tt
      = ((list_byte_of_string "<plist/>", None), tt))
  /\ (exists handler w',
        CheckinHandler (Some (tt : @CheckinService types)) (Some (tt : @Logger types))
        = Some handler
        /\ run (answering (list_byte_of_string "<plist/>"))
             (handler go.NewRecorder (http_request [])) tt
           = (Some w', tt,
              [Ev (ReadAllAndReplaceBody (http_request [])) ([], None);
               Ev (CheckinRequest (tt : @CheckinService types) request [])
                  (list_byte_of_string "<plist/>", None)])
        /\ go.Code w' = Some 200
        /\ go.Body w' = go.Body go.NewRecorder ++ list_byte_of_string "<plist/>"
        /\ go.HeaderMap w'
           = <["Content-Type" := go.http_DetectContentType (list_byte_of_string "<plist/>")]>
               (go.HeaderMap go.NewRecorder))
  /\ (exists w',
        run (answering (list_byte_of_string "<plist/>"))
          (CommandAndReportResultsHandler (tt : @CommandService types)
             (tt : @Logger types) go.NewRecorder (http_request [])) tt
        = (Some w', tt,
           [Ev (ReadAllAndReplaceBody (http_request [])) ([], None);
            Ev (CommandAndReportResultsRequest (tt : @CommandService types) request [])
               (list_byte_of_string "<plist/>", None)])
        /\ go.Code w' = Some 200
        /\ go.Body w' = go.Body go.NewRecorder ++ list_byte_of_string "<plist/>"
        /\ go.HeaderMap w'
           = <["Content-Type" := go.http_DetectContentType (list_byte_of_string "<plist/>")]>
               (go.HeaderMap go.NewRecorder)).
Proof.
  split; [repeat split|].
  destruct (@service_answer_is_200 types externals library unit
              (answering (list_byte_of_string "<plist/>")) tt tt tt
              go.NewRecorder (http_request []) (tt : @Logger types)
              request [] (list_byte_of_string "<plist/>") eq_refl eq_refl eq_refl)
    as [Hcheckin Hcommand].
  split.
  - destruct (Hcheckin (tt : @CheckinService types) eq_refl)
      as (handler & w' & Hhandler & Hrun & Hcode & Hbody & _ & Hsniffed).
    exists handler, w'. split; [exact Hhandler|]. split; [exact Hrun|].
    split; [exact Hcode|]. split; [exact Hbody|]. apply Hsniffed; reflexivity.
  - destruct (Hcommand (tt : @CommandService types) eq_refl)
      as (w' & Hrun & Hcode & Hbody & _ & Hsniffed).
    exists w'. split; [exact Hrun|].
    split; [exact Hcode|]. split; [exact Hbody|]. apply Hsniffed; reflexivity.
Defined.

Lemma ParseError_content_is_logged_witness :
  (RequestFromHTTP (http_request []) = Some request
   /\ failing_service status_around_parse (ReadAllAndReplaceBody (http_request [])) tt
      = (([], None), tt)
   /\ errors_As_ParseError status_around_parse
      = Some (Some (errors_New "EOF"), list_byte_of_string "<plist>")
   /\ (ParseError_outside status_around_parse = false
       \/ errors_As_HTTPStatusError status_around_parse = None)
   /\ failing_service status_around_parse
        (CheckinRequest (tt : @CheckinService types) request []) tt
      = (([], Some status_around_parse), tt)
   /\ failing_service status_around_parse
        (CommandAndReportResultsRequest (tt : @CommandService types) request []) tt
      = (([], Some status_around_parse), tt))
  /\ (exists handler status,
        CheckinHandler (Some (tt : @CheckinService types)) (Some (tt : @Logger types))
        = Some handler
        /\ logged (run (failing_service status_around_parse)
                     (handler go.NewRecorder (http_request [])) tt).2
           = [{| log_ctx := tt : @GoContext types; log_logger := tt : @Logger types;
                 log_keyvals :=
                   [LStr "msg"; LStr "check-in request";
                    LStr "content"; LStr (string_of_bytes (list_byte_of_string "<plist>"));
                    LStr "http_status"; LInt status;
                    LStr "err";
                    LErr (Some (fmt_Errorf "parse error: %w"
                                  (Some (errors_New "EOF"))))] |}])
  /\ (exists status,
        logged (run (failing_service status_around_parse)
                  (CommandAndReportResultsHandler (tt : @CommandService types)
                     (tt : @Logger types) go.NewRecorder (http_request [])) tt).2
        = [{| log_ctx := tt : @GoContext types; log_logger := tt : @Logger types;
              log_keyvals :=
                [LStr "msg"; LStr "command report results";
                 LStr "content"; LStr (string_of_bytes (list_byte_of_string "<plist>"));
                 LStr "http_status"; LInt status;
                 LStr "err";
                 LErr (Some (fmt_Errorf "parse error: %w"
                               (Some (errors_New "EOF"))))] |}]).
Proof.
  split; [repeat split; left; reflexivity|].
  destruct (@ParseError_content_is_logged types externals library unit
              (failing_service status_around_parse) tt tt tt
              go.NewRecorder (http_request []) (tt : @Logger types)
              request [] [] status_around_parse (Some (errors_New "EOF"))
              (list_byte_of_string "<plist>") eq_refl eq_refl eq_refl
              (or_introl eq_refl))
    as [Hcheckin Hcommand].
  split.
  - exact (Hcheckin (tt : @CheckinService types) eq_refl).
  - exact (Hcommand (tt : @CommandService types) eq_refl).
Defined.

Lemma CheckinAndCommandHandler_dispatch_witness :
  (answering (list_byte_of_string "<plist/>")
     (ReadAllAndReplaceBody (mux.request checkin_request)) tt = (([], None), tt)
   /\ answering (list_byte_of_string "<plist/>")
        (ReadAllAndReplaceBody (mux.request command_request)) tt = (([], None), tt))
  /\ (calls is_checkin
        (run (answering (list_byte_of_string "<plist/>"))
           (CheckinAndCommandHandler both_services (tt : @Logger types)
              go.NewRecorder checkin_request) tt).2
      = [Ev (CheckinRequest (tt : @CheckinService types) examples.request [])
            (list_byte_of_string "<plist/>", None)]
      /\ calls is_command
           (run (answering (list_byte_of_string "<plist/>"))
              (CheckinAndCommandHandler both_services (tt : @Logger types)
                 go.NewRecorder checkin_request) tt).2
         = [])
  /\ (calls is_command
        (run (answering (list_byte_of_string "<plist/>"))
           (CheckinAndCommandHandler both_services (tt : @Logger types)
              go.NewRecorder command_request) tt).2
      = [Ev (CommandAndReportResultsRequest (tt : @CommandService types) examples.request [])
            (list_byte_of_string "<plist/>", None)]
      /\ calls is_checkin
           (run (answering (list_byte_of_string "<plist/>"))
              (CheckinAndCommandHandler both_services (tt : @Logger types)
                 go.NewRecorder command_request) tt).2
         = []).
Proof.
  split; [split; reflexivity|].
  destruct (@CheckinAndCommandHandler_dispatch types externals library unit
              (answering (list_byte_of_string "<plist/>")) both_services
              (tt : @Logger types) go.NewRecorder checkin_request tt tt [] eq_refl)
    as (m1 & Hm1 & Hcheckin).
  destruct (@CheckinAndCommandHandler_dispatch types externals library unit
              (answering (list_byte_of_string "<plist/>")) both_services
              (tt : @Logger types) go.NewRecorder command_request tt tt [] eq_refl)
    as (m2 & Hm2 & Hcommand).
  injection Hm1 as <-. injection Hm2 as <-.
  split; [exact Hcheckin | exact Hcommand].
Defined.

End adapter_on_concrete_inputs.

(** * Further properties of the service *)
Section service_properties.
Import mdm effects nanomdm configure.
Context `{GoTypes} `{!Externals}.

Lemma fold_options_store_normalizer (os : list Setting) (s : Service) :
  store (fold_left (fun s opt => opt s) (List.map option_of os) s) = store s
  /\ normalizer (fold_left (fun s opt => opt s) (List.map option_of os) s) = normalizer s.
Proof.
  revert s. induction os as [|o os IH]; intros s; simpl; [split; reflexivity|].
  destruct (IH (option_of o s)) as [-> ->]. destruct o; split; reflexivity.
Qed.

(** X12.  However the provided options are combined, New keeps the given
    store and the normalizer [normalize]; without options the service has
    the no-op logger and no handler; an option given last sets its own
    field to its argument and leaves the three other configurable fields as
    the options before it made them. *)
Theorem New_options (st : ServiceStore) (os : list Setting) (o : Setting) :
  let s := New st (List.map option_of os) in
  let s' := New st (List.map option_of (os ++ [o])) in
  store s = st
  /\ normalizer s = normalize
  /\ (os = [] -> logger s = log_NopLogger /\ dm s = None /\ ua s = None /\ gt s = None)
  /\ match o with
     | SetLogger l => logger s' = l /\ dm s' = dm s /\ ua s' = ua s /\ gt s' = gt s
     | SetDeclarativeManagement hd =>
         dm s' = hd /\ logger s' = logger s /\ ua s' = ua s /\ gt s' = gt s
     | SetUserAuthenticate hd =>
         ua s' = hd /\ logger s' = logger s /\ dm s' = dm s /\ gt s' = gt s
     | SetGetToken hd =>
         gt s' = hd /\ logger s' = logger s /\ dm s' = dm s /\ ua s' = ua s
     end.
Proof.
  intros s s'. unfold s', s, New.
  rewrite List.map_app, fold_left_app. simpl.
  destruct (fold_options_store_normalizer os
              {| logger := log_NopLogger; normalizer := normalize; store := st;
                 dm := None; ua := None; gt := None |}) as [Hstore Hnorm].
  split; [exact Hstore|]. split; [exact Hnorm|]. split.
  - intros ->. simpl. auto.
  - destruct o; simpl; auto.
Qed.

Section with_implementation.
Context {W : Type} (h : Impl Call W).

Ltac read_calls :=
  rewrite ?calls_app, ?calls_overwriting; unfold calls; simpl.

Ltac split_answer :=
  match goal with
  | |- context [h ?X ?c ?w] => destruct (h X c w) as [? ?]
  end.

(** X13.  TokenUpdate, SetBootstrapToken and GetBootstrapToken, for a
    message that passes normalization, make exactly one call, the storage
    call of their kind with the prepared request and the message, and
    return its results as they are, errors unwrapped. *)
Theorem single_storage_call (s : Service) (r : Request) (w : W) :
  (forall message : mdm.TokenUpdate,
      Validate (normalizer s (TokenUpdate_Enrollment message)) = None ->
      let r' := prepared s r (TokenUpdate_Enrollment message) in
      let '(res, w', t) := run h (TokenUpdate s r message) w in
      let '(answer, w1) := h _ (StoreTokenUpdate (store s) r' message) w in
      calls any_call t = [Ev (StoreTokenUpdate (store s) r' message) answer]
      /\ res.2 = answer /\ w' = w1)
  /\ (forall message : mdm.SetBootstrapToken,
        Validate (normalizer s (SetBootstrapToken_Enrollment message)) = None ->
        let r' := prepared s r (SetBootstrapToken_Enrollment message) in
        let '(res, w', t) := run h (SetBootstrapToken s r message) w in
        let '(answer, w1) := h _ (StoreBootstrapToken (store s) r' message) w in
        calls any_call t = [Ev (StoreBootstrapToken (store s) r' message) answer]
        /\ res.2 = answer /\ w' = w1)
  /\ (forall message : mdm.GetBootstrapToken,
        Validate (normalizer s (GetBootstrapToken_Enrollment message)) = None ->
        let r' := prepared s r (GetBootstrapToken_Enrollment message) in
        let '(res, w', t) := run h (GetBootstrapToken s r message) w in
        let '(answer, w1) := h _ (RetrieveBootstrapToken (store s) r' message) w in
        calls any_call t = [Ev (RetrieveBootstrapToken (store s) r' message) answer]
        /\ res.2 = answer /\ w' = w1).
Proof.
  repeat split; intros message Hv;
    [unfold TokenUpdate | unfold SetBootstrapToken | unfold GetBootstrapToken];
    rewrite run_bind, run_setupRequest, Hv; simpl;
    split_answer; simpl; read_calls; auto.
Qed.

(** X14.  CommandAndReportResults never returns a command together with an
    error.  When normalization passes and a storage call fails, the command
    storage may have returned is dropped and the error returned wraps the
    storage error: [Unwrap] gives it back, and [errors.As] and [errors.Is]
    find in the returned error what they find in the storage error. *)
Theorem CommandAndReportResults_errors
    (s : Service) (r : Request) (results : CommandResults) (w : W) :
  let '(res, w', t) := run h (CommandAndReportResults s r results) w in
  (res.2.1 <> None -> res.2.2 = None)
  /\ (Validate (normalizer s (CommandResults_Enrollment results)) = None ->
      let r' := prepared s r (CommandResults_Enrollment results) in
      let '(e1, w1) := h _ (StoreCommandReport (store s) r' results) w in
      let '(next, w2) :=
        h _ (RetrieveNextCommand (store s) r'
               (String.eqb (Status results) "NotNow")) w1 in
      match (match e1 with Some e => Some e | None => next.2 end) with
      | Some e =>
          exists err',
            res.2 = (None, Some err')
            /\ Unwrap err' = Some e
            /\ errors_As_HTTPStatusError err' = errors_As_HTTPStatusError e
            /\ errors_As_ParseError err' = errors_As_ParseError e
            /\ errors_Is_ErrNoRows err' = errors_Is_ErrNoRows e
      | None => res.2 = (next.1, None)
      end).
Proof.
  unfold CommandAndReportResults. rewrite run_bind, run_setupRequest.
  destruct (Validate (normalizer s _)) as [err|]; simpl.
  { split; [intros []; reflexivity | discriminate]. }
  destruct (h _ (StoreCommandReport _ _ _) w) as [[e1|] w1]; simpl.
  { split; [intros []; reflexivity|]. intros _.
    destruct (h _ (RetrieveNextCommand _ _ _) w1) as [next w2].
    eexists. repeat split. }
  destruct (h _ (RetrieveNextCommand _ _ _) w1) as [[cmd [e2|]] w2]; simpl.
  { split; [intros []; reflexivity|]. intros _. eexists. repeat split. }
  destruct cmd as [c|]; simpl; split; auto.
Qed.

Lemma installed_stale (s : Service) (r : Request) stale e :
  installed s (set_EnrollID r stale) e = installed s r e.
Proof. reflexivity. Qed.

Lemma prepared_stale (s : Service) (r : Request) stale e :
  prepared s (set_EnrollID r stale) e = prepared s r e.
Proof. reflexivity. Qed.

(** X15.  No method reads the enrollment id a request carries on entry:
    called on a request with any enrollment id left on it, for instance by
    an earlier call, each of the nine methods returns the same results,
    leaves the same state and makes the same calls as on the request
    without it; only the debug line of [setupRequest] can differ. *)
Theorem stale_EnrollID_is_ignored
    (s : Service) (r : Request) (stale : option EnrollID) (w : W) :
  (forall m, ignores_stale_EnrollID h w s (fun r => Authenticate s r m) r stale)
  /\ (forall m, ignores_stale_EnrollID h w s (fun r => TokenUpdate s r m) r stale)
  /\ (forall m, ignores_stale_EnrollID h w s (fun r => CheckOut s r m) r stale)
  /\ (forall m, ignores_stale_EnrollID h w s (fun r => UserAuthenticate s r m) r stale)
  /\ (forall m, ignores_stale_EnrollID h w s (fun r => SetBootstrapToken s r m) r stale)
  /\ (forall m, ignores_stale_EnrollID h w s (fun r => GetBootstrapToken s r m) r stale)
  /\ (forall m, ignores_stale_EnrollID h w s (fun r => DeclarativeManagement s r m) r stale)
  /\ (forall m, ignores_stale_EnrollID h w s (fun r => GetToken s r m) r stale)
  /\ (forall m, ignores_stale_EnrollID h w s (fun r => CommandAndReportResults s r m) r stale).
Proof.
  repeat split; intros m; unfold ignores_stale_EnrollID;
    [ unfold Authenticate | unfold TokenUpdate | unfold CheckOut
    | unfold UserAuthenticate | unfold SetBootstrapToken | unfold GetBootstrapToken
    | unfold DeclarativeManagement | unfold GetToken | unfold CommandAndReportResults ];
    rewrite !run_bind, !run_setupRequest, installed_stale, prepared_stale;
    (destruct (Validate (normalizer s _)) as [err|];
     match goal with
     | |- context [run h ?p w] => destruct (run h p w) as [[res w1] rest]
     end;
     rewrite !calls_app, !calls_overwriting;
     repeat split; exists rest; split; reflexivity).
Qed.

End with_implementation.

End service_properties.

(** * Further properties of the normalizer *)
Section normalizer_properties.
Import mdm nanomdm configure.
Context `{GoTypes} `{!Externals}.

Lemma has_colon_delimited (d u : string) : has_colon (d +:+ ":" +:+ u) = true.
Proof.
  induction d as [|c d IH]; simpl; [reflexivity|].
  rewrite IH. apply orb_true_r.
Qed.

Lemma delimited_injective (d1 d2 u1 u2 : string) :
  has_colon d1 = false -> has_colon d2 = false ->
  d1 +:+ ":" +:+ u1 = d2 +:+ ":" +:+ u2 ->
  d1 = d2 /\ u1 = u2.
Proof.
  revert d2. induction d1 as [|c d1 IH]; intros [|c' d2]; simpl; intros Hc1 Hc2 E.
  - change (String ":" u1 = String ":" u2) in E. injection E as ->. auto.
  - change (String ":" u1 = String c' (d2 +:+ ":" +:+ u2)) in E.
    apply orb_false_iff in Hc2 as [Hc _]. injection E as <- _. discriminate.
  - change (String c (d1 +:+ ":" +:+ u1) = String ":" u2) in E.
    apply orb_false_iff in Hc1 as [Hc _]. injection E as -> _. discriminate.
  - change (String c (d1 +:+ ":" +:+ u1) = String c' (d2 +:+ ":" +:+ u2)) in E.
    apply orb_false_iff in Hc1 as [_ H1]. apply orb_false_iff in Hc2 as [_ H2].
    injection E as -> E.
    destruct (IH d2 H1 H2 E) as [-> ->]. auto.
Qed.

Lemma append_length (a b : string) :
  String.length (a +:+ b) = (String.length a + String.length b)%nat.
Proof. induction a as [|c a IH]; simpl; [reflexivity|]. rewrite IH. reflexivity. Qed.

(** X16.  The parent link: for a user channel and a device channel of the
    same device, the ParentID of the user enrollment id is the ID of the
    device enrollment id; the device enrollment id has no parent; the user
    ID is the device ID, a colon and the user-channel id, and differs from
    the device ID. *)
Theorem normalize_parent_link
    (e_user e_device : Enrollment) (ru rd : ResolvedEnrollment) :
  Resolved e_user = Some ru ->
  Resolved e_device = Some rd ->
  IsUserChannel ru = true ->
  IsUserChannel rd = false ->
  DeviceChannelID ru = DeviceChannelID rd ->
  exists eu ed,
    normalize e_user = Some eu
    /\ normalize e_device = Some ed
    /\ ParentID eu = ID ed
    /\ ParentID ed = ""
    /\ ID eu = ID ed +:+ ":" +:+ UserChannelID ru
    /\ ID eu <> ID ed.
Proof.
  intros Hu Hd Huser Hdevice Hsame. unfold normalize.
  rewrite Hu, Hd. simpl. rewrite Huser, Hdevice, Hsame.
  eexists. eexists. repeat split. simpl.
  intros E. apply (f_equal String.length) in E.
  rewrite append_length in E. simpl in E. lia.
Qed.

(** X17.  Enrollment ids identify enrollments: when the device-channel ids
    hold no colon, two resolvable enrollment blocks with the same ID are on
    the same kind of channel and have the same device-channel id, and on a
    user channel the same user-channel id. *)
Theorem normalize_ID_injective
    (e1 e2 : Enrollment) (r1 r2 : ResolvedEnrollment) (eid1 eid2 : EnrollID) :
  Resolved e1 = Some r1 ->
  Resolved e2 = Some r2 ->
  has_colon (DeviceChannelID r1) = false ->
  has_colon (DeviceChannelID r2) = false ->
  normalize e1 = Some eid1 ->
  normalize e2 = Some eid2 ->
  ID eid1 = ID eid2 ->
  IsUserChannel r1 = IsUserChannel r2
  /\ DeviceChannelID r1 = DeviceChannelID r2
  /\ (IsUserChannel r1 = true -> UserChannelID r1 = UserChannelID r2)
  /\ ParentID eid1 = ParentID eid2.
Proof.
  intros H1 H2 Hc1 Hc2. unfold normalize. rewrite H1, H2. simpl.
  destruct (IsUserChannel r1), (IsUserChannel r2); intros [= <-] [= <-]; simpl; intros E.
  - destruct (delimited_injective _ _ _ _ Hc1 Hc2 E) as [Hd Hu]. auto.
  - exfalso. rewrite <- E, has_colon_delimited in Hc2. discriminate.
  - exfalso. rewrite E, has_colon_delimited in Hc1. discriminate.
  - repeat split; [exact E | discriminate].
Qed.

End normalizer_properties.

Section service_on_concrete_inputs.
Import mdm effects nanomdm configure examples.
#[local] Existing Instance examples.types.
#[local] Existing Instance examples.externals.
#[local] Existing Instance examples.library.

(** Without the condition on colons two enrollments share an id. *)
Example colon_in_device_id_collides :
  ID <$> normalize {| UDID := "AAA:BBB"; EnrollmentID := ""; UserID := "";
                      UserShortName := "" |}
  = ID <$> normalize user_AAA_BBB.
Proof. reflexivity. Qed.

Lemma normalize_parent_link_witness :
  (Resolved user_AAA_BBB
   = Some {| Resolved_Type := User; DeviceChannelID := "AAA";
             UserChannelID := "BBB"; IsUserChannel := true |}
   /\ Resolved device_AAA
      = Some {| Resolved_Type := Device; DeviceChannelID := "AAA";
                UserChannelID := ""; IsUserChannel := false |})
  /\ exists eu ed,
      normalize user_AAA_BBB = Some eu
      /\ normalize device_AAA = Some ed
      /\ ParentID eu = ID ed
      /\ ParentID ed = ""
      /\ ID eu = ID ed +:+ ":" +:+ "BBB"
      /\ ID eu <> ID ed.
Proof.
  split; [split; reflexivity|].
  apply (@normalize_parent_link types externals user_AAA_BBB device_AAA
           {| Resolved_Type := User; DeviceChannelID := "AAA";
              UserChannelID := "BBB"; IsUserChannel := true |}
           {| Resolved_Type := Device; DeviceChannelID := "AAA";
              UserChannelID := ""; IsUserChannel := false |});
    reflexivity.
Defined.

Lemma normalize_ID_injective_witness :
  (Resolved user_AAA_BBB
   = Some {| Resolved_Type := User; DeviceChannelID := "AAA";
             UserChannelID := "BBB"; IsUserChannel := true |}
   /\ Resolved user_AAA_BBB_by_name
      = Some {| Resolved_Type := User; DeviceChannelID := "AAA";
                UserChannelID := "BBB"; IsUserChannel := true |}
   /\ has_colon "AAA" = false
   /\ normalize user_AAA_BBB = Some {| Type_ := User; ID := "AAA:BBB"; ParentID := "AAA" |}
   /\ normalize user_AAA_BBB_by_name
      = Some {| Type_ := User; ID := "AAA:BBB"; ParentID := "AAA" |})
  /\ true = true
  /\ "AAA" = "AAA"
  /\ (true = true -> "BBB" = "BBB")
  /\ "AAA" = "AAA".
Proof.
  split; [repeat split|].
  apply (@normalize_ID_injective types externals user_AAA_BBB user_AAA_BBB_by_name
           {| Resolved_Type := User; DeviceChannelID := "AAA";
              UserChannelID := "BBB"; IsUserChannel := true |}
           {| Resolved_Type := User; DeviceChannelID := "AAA";
              UserChannelID := "BBB"; IsUserChannel := true |}
           {| Type_ := User; ID := "AAA:BBB"; ParentID := "AAA" |}
           {| Type_ := User; ID := "AAA:BBB"; ParentID := "AAA" |});
    reflexivity.
Defined.

Lemma New_options_witness :
  ([] = ([] : list (@Setting types)))
  /\ store (New tt (List.map option_of [])) = tt
  /\ normalizer (New tt (List.map option_of [])) = normalize
  /\ (logger (New tt (List.map option_of [])) = log_NopLogger
      /\ dm (New tt (List.map option_of [])) = None
      /\ ua (New tt (List.map option_of [])) = None
      /\ gt (New tt (List.map option_of [])) = None)
  /\ ua (New tt (List.map option_of ([] ++ [SetUserAuthenticate (Some tt)]))) = Some tt.
Proof.
  split; [reflexivity|].
  destruct (@New_options types externals (tt : @ServiceStore types) []
              (SetUserAuthenticate (Some (tt : @UserAuthenticateHandler types))))
    as (Hstore & Hnormalizer & Hdefault & Hua & _).
  split; [exact Hstore|]. split; [exact Hnormalizer|].
  split; [exact (Hdefault eq_refl) | exact Hua].
Defined.

Lemma stale_EnrollID_is_ignored_witness :
  ignores_stale_EnrollID counting 0%nat service
    (fun r => Authenticate service r authenticate_AAA) request
    (Some {| Type_ := Device; ID := "ZZZ"; ParentID := "" |})
  /\ overwriting service
       (set_EnrollID request (Some {| Type_ := Device; ID := "ZZZ"; ParentID := "" |}))
     <> overwriting service request.
Proof.
  split.
  - exact (proj1 (@stale_EnrollID_is_ignored types externals nat counting service request
                    (Some {| Type_ := Device; ID := "ZZZ"; ParentID := "" |}) 0%nat)
             authenticate_AAA).
  - discriminate.
Defined.

Lemma single_storage_call_witness :
  Validate (normalizer service (TokenUpdate_Enrollment tokenupdate_AAA)) = None
  /\ calls any_call (run counting (TokenUpdate service request tokenupdate_AAA) 0%nat).2
     = [Ev (StoreTokenUpdate tt (prepared service request device_AAA) tokenupdate_AAA) None]
  /\ (run (failing_store (errors_New "disk full"))
        (TokenUpdate service request tokenupdate_AAA) 0%nat).1.1.2
     = Some (errors_New "disk full")
  /\ (run (failing_store (errors_New "disk full"))
        (GetBootstrapToken service request
           {| GetBootstrapToken_Enrollment := device_AAA; GetBootstrapToken_Raw := [] |})
        0%nat).1.1.2
     = (None, Some (errors_New "disk full"))
  /\ (run (failing_store (errors_New "disk full"))
        (SetBootstrapToken service request
           {| SetBootstrapToken_Enrollment := device_AAA; SetBootstrapToken_Raw := [] |})
        0%nat).1.1.2
     = Some (errors_New "disk full").
Proof.
  split; [reflexivity|].
  destruct (@single_storage_call types externals nat counting service request 0%nat)
    as (Hok & _ & _).
  destruct (@single_storage_call types externals nat
              (failing_store (errors_New "disk full")) service request 0%nat)
    as (Htoken & Hset & Hget).
  split; [exact (proj1 (Hok tokenupdate_AAA eq_refl))|].
  split; [exact (proj1 (proj2 (Htoken tokenupdate_AAA eq_refl)))|].
  split.
  - exact (proj1 (proj2 (Hget {| GetBootstrapToken_Enrollment := device_AAA;
                                 GetBootstrapToken_Raw := [] |} eq_refl))).
  - exact (proj1 (proj2 (Hset {| SetBootstrapToken_Enrollment := device_AAA;
                                 SetBootstrapToken_Raw := [] |} eq_refl))).
Defined.

Lemma CommandAndReportResults_errors_witness :
  Validate (normalizer service (CommandResults_Enrollment report_Idle)) = None
  /\ (run (failing_store (HTTPStatusError 503 None))
        (CommandAndReportResults service request report_Idle) 0%nat).1.1.2
     = (None, Some (fmt_Errorf "retrieving next command: %w"
                      (Some (HTTPStatusError 503 None))))
  /\ errors_As_HTTPStatusError
       (fmt_Errorf "retrieving next command: %w" (Some (HTTPStatusError 503 None)))
     = Some (503, None).
Proof.
  split; [reflexivity|].
  pose proof (@CommandAndReportResults_errors types externals nat
                (failing_store (HTTPStatusError 503 None)) service request
                report_Idle 0%nat) as Hthm.
  destruct (proj2 Hthm eq_refl) as (err' & Hres & Hunwrap & Hstatus & _).
  injection Hres as <-.
  split; [reflexivity | exact Hstatus].
Defined.

End service_on_concrete_inputs.

(** * Log lines of the service *)
Section logging_properties.
Import mdm effects nanomdm logging.
Context `{GoTypes} `{!Externals}.
Context {W : Type} (h : Impl Call W).

Ltac split_answers :=
  repeat match goal with
    | |- context [h ?X ?c ?w] => destruct (h X c w) as [? ?]; simpl
    | |- context [match ?o with Some _ => _ | None => _ end] => destruct o; simpl
    | |- context [let '(_, _) := ?p in _] => is_var p; destruct p; simpl
    | |- context [if ?b then _ else _] => destruct b; simpl
    end.

(** X18.  Every method whose message passes normalization logs its one
    Info line before it calls the storage or a handler, whatever these
    answer: the line comes right after the optional debug line of
    [setupRequest], goes through the logger of the service under the
    context of the prepared request, and starts with the values given
    below; nothing else is logged at Info. *)
Theorem Info_line_comes_first (s : Service) (r : Request) (w : W) :
  (forall m, Validate (normalizer s (Authenticate_Enrollment m)) = None ->
             logs_Info_first h w s r (Authenticate_Enrollment m)
               (Authenticate s r m) "msg" "Authenticate")
  /\ (forall m, Validate (normalizer s (TokenUpdate_Enrollment m)) = None ->
                logs_Info_first h w s r (TokenUpdate_Enrollment m)
                  (TokenUpdate s r m) "msg" "TokenUpdate")
  /\ (forall m, Validate (normalizer s (CheckOut_Enrollment m)) = None ->
                logs_Info_first h w s r (CheckOut_Enrollment m)
                  (CheckOut s r m) "msg" "CheckOut")
  /\ (forall m, Validate (normalizer s (UserAuthenticate_Enrollment m)) = None ->
                logs_Info_first h w s r (UserAuthenticate_Enrollment m)
                  (UserAuthenticate s r m) "msg" "UserAuthenticate")
  /\ (forall m, Validate (normalizer s (SetBootstrapToken_Enrollment m)) = None ->
                logs_Info_first h w s r (SetBootstrapToken_Enrollment m)
                  (SetBootstrapToken s r m) "msg" "SetBootstrapToken")
  /\ (forall m, Validate (normalizer s (GetBootstrapToken_Enrollment m)) = None ->
                logs_Info_first h w s r (GetBootstrapToken_Enrollment m)
                  (GetBootstrapToken s r m) "msg" "GetBootstrapToken")
  /\ (forall m, Validate (normalizer s (DeclarativeManagement_Enrollment m)) = None ->
                logs_Info_first h w s r (DeclarativeManagement_Enrollment m)
                  (DeclarativeManagement s r m) "msg" "DeclarativeManagement")
  /\ (forall m, Validate (normalizer s (GetToken_Enrollment m)) = None ->
                logs_Info_first h w s r (GetToken_Enrollment m)
                  (GetToken s r m) "msg" "GetToken")
  /\ (forall m, Validate (normalizer s (CommandResults_Enrollment m)) = None ->
                logs_Info_first h w s r (CommandResults_Enrollment m)
                  (CommandAndReportResults s r m) "status" (Status m)).
Proof.
  repeat split; intros m Hv; unfold logs_Info_first;
    [ unfold Authenticate | unfold TokenUpdate | unfold CheckOut
    | unfold UserAuthenticate | unfold SetBootstrapToken | unfold GetBootstrapToken
    | unfold DeclarativeManagement | unfold GetToken | unfold CommandAndReportResults ];
    rewrite run_bind, run_setupRequest, Hv; simpl;
    split_answers;
    (eexists; eexists; split; [reflexivity|]; simpl;
     repeat split; repeat constructor).
Qed.

End logging_properties.

Section logging_on_concrete_inputs.
Import mdm effects nanomdm logging examples.
#[local] Existing Instance examples.types.
#[local] Existing Instance examples.externals.
#[local] Existing Instance examples.library.

Lemma Info_line_comes_first_witness :
  Validate (normalizer service (Authenticate_Enrollment authenticate_AAA)) = None
  /\ logs_Info_first (configure.failing_store (errors_New "disk full")) 0%nat
       service request device_AAA
       (Authenticate service request authenticate_AAA) "msg" "Authenticate".
Proof.
  split; [reflexivity|].
  exact (proj1 (@Info_line_comes_first types externals nat
                  (configure.failing_store (errors_New "disk full"))
                  service request 0%nat) authenticate_AAA eq_refl).
Defined.

End logging_on_concrete_inputs.
